(** * project-bot: the pull-request webhook handler of [pkg/main.go]

    A shallow embedding of [getColumns] and [handler].  The remote project
    board (go-github's [client.Repositories] and [client.Projects]) is an
    interface with an abstract server state; the handler runs in a small
    monad that threads that state together with the log, the
    [http.ResponseWriter] and the record of the calls made so far, and that
    knows the two ways a Go function body stops early: [return] and a
    run-time panic. *)

From Stdlib Require Import ZArith Ascii Sorted.
From stdpp Require Import base option list gmap strings pretty.

Local Open Scope string_scope.
Local Open Scope list_scope.
Local Open Scope Z_scope.

(** ** Constants (main.go, lines 15-30) *)

Definition OWNER : string := "iamhopaul123".
Definition REPO : string := "penghaoh-flask-app".
Definition PROJECT_NAME : string := "Sprint".
Definition BACKLOG : string := "Backlog".
Definition IN_PROGRESS : string := "In progress".
Definition IN_REVIEW : string := "In review".
Definition PENDING_RELEASE : string := "Pending release".

Definition allColumns : list string :=
  [BACKLOG; IN_PROGRESS; IN_REVIEW; PENDING_RELEASE].

(** net/http status codes used by the handler. *)
Definition StatusOK : Z := 200.
Definition StatusCreated : Z := 201.
Definition StatusAccepted : Z := 202.
Definition StatusBadRequest : Z := 400.
Definition StatusUnauthorized : Z := 401.

(** The line feed that [fmt.Fprintln] appends. *)
Definition LF : string := String "010"%char EmptyString.

(** ** go-github data

    Every field of a go-github struct is a pointer and the structs
    themselves are handled through pointers: [option] is the pointer, [None]
    is [nil].  The [Get...] accessors are nil-safe on the receiver and on the
    field and fall back to Go's zero value. *)

Record Project := { Project_ID : option Z; Project_Name : option string }.
Record ProjectColumn := { ProjectColumn_ID : option Z; ProjectColumn_Name : option string }.
Record ProjectCard := { ProjectCard_ID : option Z; ProjectCard_NodeID : option string }.
Record PullRequest :=
  { PullRequest_ID : option Z;
    PullRequest_NodeID : option string;
    PullRequest_Title : option string }.
Record PullRequestEvent :=
  { Event_Action : option string; Event_PullRequest : option PullRequest }.

(** [github.Response]: the embedded [http.Response], of which the handler
    reads [StatusCode] only. *)
Record Response := { StatusCode : Z }.

(** A Go [error] value: [None] is the nil interface, [Some s] an error whose
    [Error()] text is [s]. *)
Definition error : Type := option string.

Record ProjectCardOptions := { ContentID : Z; ContentType : string }.
Record ProjectCardMoveOptions := { Position : string; ColumnID : Z }.

Module Get.
(** Nil-safe accessor of a pointer field behind a pointer receiver. *)
Definition field {T A : Type} (f : T → option A) (zero : A) (p : option T) : A :=
  match p with
  | Some s => default zero (f s)
  | None => zero
  end.

Definition ProjectID := field Project_ID 0.
Definition ProjectName := field Project_Name "".
Definition ColumnID := field ProjectColumn_ID 0.
Definition ColumnName := field ProjectColumn_Name "".
Definition CardID := field ProjectCard_ID 0.
Definition CardNodeID := field ProjectCard_NodeID "".
Definition PullRequestID := field PullRequest_ID 0.
Definition PullRequestNodeID := field PullRequest_NodeID "".
Definition PullRequestTitle := field PullRequest_Title "".
Definition Action := field Event_Action "".
Definition PullRequest (e : option PullRequestEvent) : option PullRequest :=
  match e with
  | Some ev => Event_PullRequest ev
  | None => None
  end.
End Get.

(** ** The Board Client

    What the handler asks of the remote API.  [Srv] is the state of the
    remote side; every operation returns Go's result tuple and the state
    after the call. *)

Class BoardClient (Srv : Type) := {
  ListProjects :
    string → string → Srv → (list (option Project) * option Response * error) * Srv;
  ListProjectColumns :
    Z → Srv → (list (option ProjectColumn) * option Response * error) * Srv;
  ListProjectCards :
    Z → Srv → (list (option ProjectCard) * option Response * error) * Srv;
  CreateProjectCard :
    Z → ProjectCardOptions → Srv → (option ProjectCard * option Response * error) * Srv;
  MoveProjectCard :
    Z → ProjectCardMoveOptions → Srv → (option Response * error) * Srv
}.

(** One call as it left the handler. *)
Inductive Call :=
| CallListProjects (owner repo : string)
| CallListProjectColumns (projectID : Z)
| CallListProjectCards (columnID : Z)
| CallCreateProjectCard (columnID : Z) (opts : ProjectCardOptions)
| CallMoveProjectCard (cardID : Z) (opts : ProjectCardMoveOptions).

(** A call together with the error it came back with. *)
Record Exchange := { call : Call; failure : error }.

Definition isRead (c : Call) : bool :=
  match c with
  | CallListProjects _ _ | CallListProjectColumns _ | CallListProjectCards _ => true
  | _ => false
  end.
Definition isMutation (c : Call) : bool := negb (isRead c).
Definition isListProjects (c : Call) : bool :=
  match c with CallListProjects _ _ => true | _ => false end.
Definition isListProjectColumns (c : Call) : bool :=
  match c with CallListProjectColumns _ => true | _ => false end.
Definition isListProjectCards (c : Call) : bool :=
  match c with CallListProjectCards _ => true | _ => false end.

(** ** The inbound request

    [github.ValidatePayload], [github.ParseWebHook] and [github.WebHookType]
    belong to the Event Gateway; a request is what they answer for it. *)

Inductive WebHookEvent :=
| EvPullRequest (e : option PullRequestEvent)
| EvOther.

Record Request := {
  ValidatePayload : error;
  ParseWebHook : WebHookEvent * error;
  WebHookType : string
}.

(** ** The handler monad *)

(** [http.ResponseWriter]: the status passed to the first [WriteHeader]
    ([None] while none happened) and the body written so far. *)
Record ResponseWriter := { status : option Z; body : string }.

Record State (Srv : Type) := {
  remote : Srv;
  trace : list Exchange;
  logs : list string;
  w : ResponseWriter
}.
Arguments remote {Srv} _.
Arguments trace {Srv} _.
Arguments logs {Srv} _.
Arguments w {Srv} _.

(** How a piece of the handler's body ends: it falls through with a value,
    the handler [return]s, or the goroutine panics. *)
Inductive Flow (A : Type) :=
| Next (a : A)
| Return
| Panic (msg : string).
Arguments Next {A} a.
Arguments Return {A}.
Arguments Panic {A} msg.

Definition M (Srv A : Type) : Type := State Srv → Flow A * State Srv.

Definition ret {Srv A} (a : A) : M Srv A := λ st, (Next a, st).
Definition bind {Srv A B} (m : M Srv A) (k : A → M Srv B) : M Srv B :=
  λ st, match m st with
        | (Next a, st') => k a st'
        | (Return, st') => (Return, st')
        | (Panic msg, st') => (Panic msg, st')
        end.
Definition return_ {Srv A} : M Srv A := λ st, (Return, st).
Definition panic {Srv A} (msg : string) : M Srv A := λ st, (Panic msg, st).

Declare Scope go_scope.
Delimit Scope go_scope with go.
Notation "'let*' x ':=' m 'in' k" := (bind m (λ x, k))
  (at level 10, x pattern, m at level 100, k at level 200) : go_scope.
Notation "m '>>' k" := (bind m (λ _, k))
  (at level 90, right associativity) : go_scope.
Local Open Scope go_scope.

Definition initial {Srv} (s : Srv) : State Srv :=
  {| remote := s; trace := []; logs := []; w := {| status := None; body := "" |} |}.

(** ** Effects *)

Section Effects.
Context {Srv : Type}.

(** [log.Printf]: one line of the log (without the final line feed). *)
Definition logPrintf (line : string) : M Srv unit :=
  λ st, (Next (), {| remote := remote st; trace := trace st;
                    logs := logs st ++ [line]; w := w st |}).

(** [w.WriteHeader(code)]: once a header is out, a further call changes
    nothing; otherwise net/http panics on a code outside 100..999 and
    sends the header.  Informational codes get no treatment of their
    own. *)
Definition WriteHeader (code : Z) : M Srv unit :=
  λ st,
    match status (w st) with
    | Some _ => (Next (), st)
    | None =>
        if (code <? 100) || (999 <? code)
        then (Panic ("invalid WriteHeader code " +:+ pretty code), st)
        else (Next (),
              {| remote := remote st; trace := trace st; logs := logs st;
                 w := {| status := Some code; body := body (w st) |} |})
    end.

(** [fmt.Fprintln(w, text)]: a write before any [WriteHeader] sends 200.
    That net/http drops the body of a 1xx, 204 or 304 answer is not part of
    this writer: the statements that range over a response's own status
    code keep to the codes that take a body ([takesBody] below). *)
Definition Fprintln (text : string) : M Srv unit :=
  λ st,
    (Next (),
     {| remote := remote st; trace := trace st; logs := logs st;
        w := {| status := Some (default StatusOK (status (w st)));
                body := body (w st) +:+ text +:+ LF |} |}).

(** [http.Error(w, text, code)]. *)
Definition http_Error (text : string) (code : Z) : M Srv unit :=
  WriteHeader code >> Fprintln text.

(** [resp.StatusCode] through a [*github.Response] that may be nil. *)
Definition statusCodeOf (resp : option Response) : M Srv Z :=
  match resp with
  | Some r => ret (StatusCode r)
  | None => panic "runtime error: invalid memory address or nil pointer dereference"
  end.

(** [s[0]] on a slice. *)
Definition index0 {A} (s : list A) : M Srv A :=
  match s with
  | x :: _ => ret x
  | [] => panic "runtime error: index out of range [0] with length 0"
  end.

(** [if err != nil { ... }] *)
Definition ifErr (err : error) (body : string → M Srv unit) : M Srv unit :=
  match err with
  | Some text => body text
  | None => ret ()
  end.

(** A call of the Board Client: the remote state advances and the call is
    recorded with the error it returned. *)
Definition request {A} (c : Call) (errOf : A → error) (op : Srv → A * Srv) : M Srv A :=
  λ st,
    let '(a, s') := op (remote st) in
    (Next a, {| remote := s'; logs := logs st; w := w st;
                trace := trace st ++ [{| call := c; failure := errOf a |}] |}).
End Effects.

(** ** getColumns and handler *)

Section Handler.
Context {Srv : Type} `{!BoardClient Srv}.

(** Go visits the entries of a map in an order of the runtime's choosing:
    [rangeMap] is that choice, a listing of the map's entries. *)
Variable rangeMap :
  gmap string (option ProjectColumn) → list (string * option ProjectColumn).

(** [m[k]] on a Go map of pointers: nil for an absent key. *)
Definition at_ (m : gmap string (option ProjectColumn)) (k : string)
  : option ProjectColumn :=
  default None (m !! k).

(** Lines 33-38. *)
Definition projColumns0 : gmap string (option ProjectColumn) :=
  <[BACKLOG := None]> (<[IN_PROGRESS := None]> (<[IN_REVIEW := None]>
    (<[PENDING_RELEASE := None]> ∅))).

(** Lines 43-48: a listed column is stored under its name when that name is
    a key of the map. *)
Definition collectColumns (projColumns : gmap string (option ProjectColumn))
    (columns : list (option ProjectColumn)) : gmap string (option ProjectColumn) :=
  foldl (λ m column,
           let name := Get.ColumnName column in
           match m !! name with
           | Some _ => <[name := column]> m
           | None => m
           end)
        projColumns columns.

(** Lines 49-53: the first entry visited whose value is nil. *)
Fixpoint firstMissing (entries : list (string * option ProjectColumn)) : error :=
  match entries with
  | [] => None
  | (k, v) :: rest =>
      match v with
      | None => Some ("column " +:+ k +:+ " does not exist")
      | Some _ => firstMissing rest
      end
  end.

(** Lines 32-55. *)
Definition getColumns (proj : option Project)
  : M Srv (gmap string (option ProjectColumn) * error) :=
  let projColumns := projColumns0 in
  let* (columns, _, err) :=
    request (CallListProjectColumns (Get.ProjectID proj)) snd
            (ListProjectColumns (Get.ProjectID proj)) in
  match err with
  | Some _ => ret (∅, err)
  | None =>
      let projColumns := collectColumns projColumns columns in
      match firstMissing (rangeMap projColumns) with
      | Some text => ret (∅, Some text)
      | None => ret (projColumns, None)
      end
  end.

(** Lines 115-124: the cards of the project, column after column. *)
Fixpoint listCards (columns : gmap string (option ProjectColumn))
    (names : list string) (cards : list (option ProjectCard))
  : M Srv (list (option ProjectCard)) :=
  match names with
  | [] => ret cards
  | columnName :: rest =>
      let* (columnCards, resp, err) :=
        request (CallListProjectCards (Get.ColumnID (at_ columns columnName))) snd
                (ListProjectCards (Get.ColumnID (at_ columns columnName))) in
      ifErr err (λ text,
        logPrintf ("🚨 error listing project cards for column " +:+ IN_REVIEW
                   +:+ ": err=" +:+ text) >>
        let* code := statusCodeOf resp in
        http_Error text code >>
        return_) >>
      listCards columns rest (cards ++ columnCards)
  end.

(** Lines 127-133: the ID of the first card with the pull request's node
    ID, 0 when the loop finds none. *)
Fixpoint findCardID (cards : list (option ProjectCard)) (pr : option PullRequest) : Z :=
  match cards with
  | [] => 0
  | card :: rest =>
      if String.eqb (Get.CardNodeID card) (Get.PullRequestNodeID pr)
      then Get.CardID card
      else findCardID rest pr
  end.

(** Lines 135-161: with the sentinel 0 a card is created in "In review",
    with any other ID that card is moved to the bottom of "In review". *)
Definition createOrMove (columns : gmap string (option ProjectColumn))
    (pr : option PullRequest) (cardID : Z) : M Srv unit :=
  if cardID =? 0
  then
    let* (_, resp, err) :=
      request (CallCreateProjectCard (Get.ColumnID (at_ columns IN_REVIEW))
                 {| ContentID := Get.PullRequestID pr; ContentType := "PullRequest" |})
              snd
              (CreateProjectCard (Get.ColumnID (at_ columns IN_REVIEW))
                 {| ContentID := Get.PullRequestID pr; ContentType := "PullRequest" |}) in
    ifErr err (λ text,
      logPrintf ("🚨 error creating project cards for pr "
                 +:+ Get.PullRequestTitle pr +:+ ": err=" +:+ text) >>
      let* code := statusCodeOf resp in
      http_Error text code >>
      return_) >>
    WriteHeader StatusCreated >>
    return_
  else
    let* (resp, err) :=
      request (CallMoveProjectCard cardID
                 {| Position := "bottom";
                    ColumnID := Get.ColumnID (at_ columns IN_REVIEW) |})
              snd
              (MoveProjectCard cardID
                 {| Position := "bottom";
                    ColumnID := Get.ColumnID (at_ columns IN_REVIEW) |}) in
    ifErr err (λ text,
      logPrintf ("🚨 error moving project cards for pr "
                 +:+ Get.PullRequestTitle pr +:+ ": err=" +:+ text) >>
      let* code := statusCodeOf resp in
      http_Error text code >>
      return_) >>
    WriteHeader StatusCreated >>
    return_.

(** Lines 90-161: the [*github.PullRequestEvent] case once the action is
    known to be "opened". *)
Definition opened (e : option PullRequestEvent) : M Srv unit :=
  let pr := Get.PullRequest e in
  (* Get the project we want. *)
  let* (projects, _, err) :=
    request (CallListProjects OWNER REPO) snd (ListProjects OWNER REPO) in
  ifErr err (λ text,
    logPrintf ("🚨 error getting project name: err=" +:+ text) >>
    http_Error text StatusUnauthorized >>
    return_) >>
  let* first := index0 projects in
  let projName := Get.ProjectName first in
  (if negb (String.eqb projName PROJECT_NAME)
   then
     logPrintf ("🚨 error project " +:+ projName +:+ " not found: err=%!s(<nil>)") >>
     http_Error ("project " +:+ projName +:+ " not found") StatusUnauthorized >>
     return_
   else ret ()) >>
  let proj := first in
  (* Get the column info *)
  let* (columns, err) := getColumns proj in
  ifErr err (λ text,
    logPrintf ("🚨 error getting project columns: err=" +:+ text) >>
    http_Error text StatusUnauthorized >>
    return_) >>
  (* Get all cards in the project. *)
  let* cards := listCards columns allColumns [] in
  (* Checkout if the card related to the PR already exists or not. *)
  let cardID := findCardID cards pr in
  createOrMove columns pr cardID.

(** Lines 57-166.  The OAuth client of lines 75-81 and the deferred
    [req.Body.Close()] leave no mark on what is modelled here. *)
Definition handler (req : Request) : M Srv unit :=
  (* Validate payload. *)
  ifErr (ValidatePayload req) (λ text,
    logPrintf ("🚨 error validating request body: err=" +:+ text) >>
    http_Error text StatusUnauthorized >>
    return_) >>
  (* Parse payload to get the event. *)
  let (event, err) := ParseWebHook req in
  ifErr err (λ text,
    logPrintf ("🚨 error could not parse webhook: err=" +:+ text) >>
    http_Error text StatusBadRequest >>
    return_) >>
  match event with
  | EvPullRequest e =>
      if negb (String.eqb (Get.Action e) "opened")
      then WriteHeader StatusAccepted >> return_
      else opened e
  | EvOther =>
      logPrintf ("🤷‍♀️ event type " +:+ WebHookType req) >>
      return_
  end.
End Handler.

(** ** Vocabulary of the statements *)

Section Vocabulary.
Context {Srv : Type} `{!BoardClient Srv}.

(** The request passed validation and parsed to a pull-request event. *)
Definition pullRequestEvent (req : Request) (e : option PullRequestEvent) : Prop :=
  ValidatePayload req = None ∧ ParseWebHook req = (EvPullRequest e, None).

(** The columns the handler works with once [cols] has been listed. *)
Definition resolved (cols : list (option ProjectColumn)) : gmap string (option ProjectColumn) :=
  collectColumns projColumns0 cols.

(** The listing [cols] has a column for every required name. *)
Definition listsAllColumns (cols : list (option ProjectColumn)) : Prop :=
  ∀ name, name ∈ allColumns → ∃ column, column ∈ cols ∧ Get.ColumnName column = name.

(** Every read of the board succeeds: from [s0] the project listing
    starts with [project], named as configured, the column listing is
    [cols] and has the four columns, and the four card listings, asked in
    the order of [allColumns], return [cards] between them and leave the
    remote side in [s6]. *)
Definition boardRead (s0 : Srv) (project : option Project)
    (cols : list (option ProjectColumn)) (cards : list (option ProjectCard))
    (s6 : Srv) : Prop :=
  ∃ others r1 s1 r2 s2 c1 r3 s3 c2 r4 s4 c3 r5 s5 c4 r6,
    ListProjects OWNER REPO s0 = ((project :: others, r1, None), s1)
    ∧ Get.ProjectName project = PROJECT_NAME
    ∧ ListProjectColumns (Get.ProjectID project) s1 = ((cols, r2, None), s2)
    ∧ listsAllColumns cols
    ∧ ListProjectCards (Get.ColumnID (at_ (resolved cols) BACKLOG)) s2
      = ((c1, r3, None), s3)
    ∧ ListProjectCards (Get.ColumnID (at_ (resolved cols) IN_PROGRESS)) s3
      = ((c2, r4, None), s4)
    ∧ ListProjectCards (Get.ColumnID (at_ (resolved cols) IN_REVIEW)) s4
      = ((c3, r5, None), s5)
    ∧ ListProjectCards (Get.ColumnID (at_ (resolved cols) PENDING_RELEASE)) s5
      = ((c4, r6, None), s6)
    ∧ cards = c1 ++ c2 ++ c3 ++ c4.

(** The six read calls of a request that gets as far as the search. *)
Definition readCalls (project : option Project)
    (columns : gmap string (option ProjectColumn)) : list Call :=
  [CallListProjects OWNER REPO;
   CallListProjectColumns (Get.ProjectID project);
   CallListProjectCards (Get.ColumnID (at_ columns BACKLOG));
   CallListProjectCards (Get.ColumnID (at_ columns IN_PROGRESS));
   CallListProjectCards (Get.ColumnID (at_ columns IN_REVIEW));
   CallListProjectCards (Get.ColumnID (at_ columns PENDING_RELEASE))].

Definition succeeded (c : Call) : Exchange := {| call := c; failure := None |}.

(** The handler's state when the search starts. *)
Definition afterReads (project : option Project)
    (columns : gmap string (option ProjectColumn)) (s6 : Srv) : State Srv :=
  {| remote := s6; trace := map succeeded (readCalls project columns);
     logs := []; w := {| status := None; body := "" |} |}.

Definition calls (st : State Srv) : list Call := map call (trace st).

Definition matches (pr : option PullRequest) (card : option ProjectCard) : Prop :=
  Get.CardNodeID card = Get.PullRequestNodeID pr.

(** The two mutating calls as lines 137-140 and 151-154 build them. *)
Definition createCall (columns : gmap string (option ProjectColumn))
    (pr : option PullRequest) : Call :=
  CallCreateProjectCard (Get.ColumnID (at_ columns IN_REVIEW))
    {| ContentID := Get.PullRequestID pr; ContentType := "PullRequest" |}.
Definition moveCall (columns : gmap string (option ProjectColumn)) (cardID : Z) : Call :=
  CallMoveProjectCard cardID
    {| Position := "bottom"; ColumnID := Get.ColumnID (at_ columns IN_REVIEW) |}.

(** The error a call returns in a given state of the remote side. *)
Definition createError (columns : gmap string (option ProjectColumn))
    (pr : option PullRequest) (s : Srv) : error :=
  snd (fst (CreateProjectCard (Get.ColumnID (at_ columns IN_REVIEW))
              {| ContentID := Get.PullRequestID pr; ContentType := "PullRequest" |} s)).
Definition moveError (columns : gmap string (option ProjectColumn))
    (cardID : Z) (s : Srv) : error :=
  snd (fst (MoveProjectCard cardID
              {| Position := "bottom"; ColumnID := Get.ColumnID (at_ columns IN_REVIEW) |} s)).

Definition created : ResponseWriter := {| status := Some StatusCreated; body := "" |}.

(** How many of the calls satisfy [p]. *)
Definition count (p : Call → bool) (cs : list Call) : nat :=
  length (List.filter p cs).

(** The place of a call in the handler's script. *)
Definition rank (c : Call) : nat :=
  match c with
  | CallListProjects _ _ => 0
  | CallListProjectColumns _ => 1
  | CallListProjectCards _ => 2
  | CallCreateProjectCard _ _ | CallMoveProjectCard _ _ => 3
  end%nat.
End Vocabulary.

(** ** A concrete board

    A Board Client that answers from a fixed table, whatever was asked
    before: the remote side of the scenarios below. *)

Module Demo.
Record Board := {
  projects : list (option Project) * option Response * error;
  columns : Z → list (option ProjectColumn) * option Response * error;
  cards : Z → list (option ProjectCard) * option Response * error;
  create : Z → ProjectCardOptions → option ProjectCard * option Response * error;
  move : Z → ProjectCardMoveOptions → option Response * error
}.

#[global] Instance client : BoardClient Board := {|
  ListProjects _ _ b := (projects b, b);
  ListProjectColumns id b := (columns b id, b);
  ListProjectCards id b := (cards b id, b);
  CreateProjectCard id opts b := (create b id opts, b);
  MoveProjectCard id opts b := (move b id opts, b)
|}.

Definition ok (code : Z) : option Response := Some {| StatusCode := code |}.

Definition column (id : Z) (name : string) : option ProjectColumn :=
  Some {| ProjectColumn_ID := Some id; ProjectColumn_Name := Some name |}.
Definition card (id : Z) (node : string) : option ProjectCard :=
  Some {| ProjectCard_ID := Some id; ProjectCard_NodeID := Some node |}.

Definition sprint : option Project :=
  Some {| Project_ID := Some 1; Project_Name := Some PROJECT_NAME |}.

Definition fourColumns : list (option ProjectColumn) :=
  [column 10 BACKLOG; column 11 IN_PROGRESS; column 12 IN_REVIEW;
   column 13 PENDING_RELEASE].

(** The board of the spec's scenarios: card 555 for "PR_2" waits in
    Backlog, nothing refers to "PR_1". *)
Definition board : Board := {|
  projects := ([sprint], ok 200, None);
  columns _ := (fourColumns, ok 200, None);
  cards id := (if id =? 10 then [card 555 "PR_2"]
               else if id =? 11 then [card 556 "PR_3"]
               else if id =? 12 then [card 557 "PR_4"; card 558 "PR_2"]
               else [], ok 200, None);
  create _ _ := (None, ok 201, None);
  move _ _ := (ok 201, None)
|}.

Definition pullRequest (id : Z) (node : string) : option PullRequest :=
  Some {| PullRequest_ID := Some id; PullRequest_NodeID := Some node;
          PullRequest_Title := Some "a change" |}.
Definition event (action : string) (id : Z) (node : string) : option PullRequestEvent :=
  Some {| Event_Action := Some action; Event_PullRequest := pullRequest id node |}.
Definition delivery (e : option PullRequestEvent) : Request :=
  {| ValidatePayload := None; ParseWebHook := (EvPullRequest e, None);
     WebHookType := "pull_request" |}.
Definition openedPR (id : Z) (node : string) : Request :=
  delivery (event "opened" id node).
Definition closedPR : Request := delivery (event "closed" 42 "PR_1").

(** The same board with a card for "PR_2" whose ID is 0. *)
Definition zeroBoard : Board := {|
  projects := projects board;
  columns := columns board;
  cards id := (if id =? 10 then [card 0 "PR_2"]
               else if id =? 12 then [card 558 "PR_2"]
               else [], ok 200, None);
  create := create board;
  move := move board
|}.

(** No project at all, and a first project under another name. *)
Definition noProject : Board := {|
  projects := ([], ok 200, None);
  columns := columns board; cards := cards board;
  create := create board; move := move board
|}.
Definition roadmap : option Project :=
  Some {| Project_ID := Some 2; Project_Name := Some "Roadmap" |}.
Definition otherProject : Board := {|
  projects := ([roadmap; sprint], ok 200, None);
  columns := columns board; cards := cards board;
  create := create board; move := move board
|}.

(** The column listing lacks "In review" and "Pending release". *)
Definition twoColumns : list (option ProjectColumn) :=
  [column 10 BACKLOG; column 11 IN_PROGRESS; column 14 "Done"].
Definition noReview : Board := {|
  projects := projects board;
  columns _ := (twoColumns, ok 200, None);
  cards := cards board; create := create board; move := move board
|}.

(** The transport fails before any response arrives: go-github returns a
    nil [*Response] next to the error. *)
Definition timeout : error := Some "dial tcp: i/o timeout".
Definition listingDown : Board := {|
  projects := projects board; columns := columns board;
  cards _ := ([], None, timeout);
  create := create board; move := move board
|}.
Definition createDown : Board := {|
  projects := projects board; columns := columns board; cards := cards board;
  create _ _ := (None, None, timeout);
  move := move board
|}.
Definition moveDown : Board := {|
  projects := projects board; columns := columns board; cards := cards board;
  create := create board;
  move _ _ := (None, timeout)
|}.

(** The API answers the creation with 422. *)
Definition createRejected : Board := {|
  projects := projects board; columns := columns board; cards := cards board;
  create _ _ := (None, ok 422, Some "Validation Failed");
  move := move board
|}.

(** Two ways the runtime may walk a map. *)
Definition ascending (m : gmap string (option ProjectColumn)) := map_to_list m.
Definition descending (m : gmap string (option ProjectColumn)) := reverse (map_to_list m).
End Demo.

(** ** Further vocabulary and boards *)

Section Shapes.
(** The column a mutating call creates in or moves to. *)
Definition targetColumn (c : Call) : option Z :=
  match c with
  | CallCreateProjectCard columnID _ => Some columnID
  | CallMoveProjectCard _ opts => Some (ColumnID opts)
  | _ => None
  end.

(** A response writer nobody wrote to. *)
Definition untouched : ResponseWriter := {| status := None; body := "" |}.

(** The codes [WriteHeader] accepts. *)
Definition validCode (code : Z) : Prop := 100 ≤ code ≤ 999.

(** The codes that net/http sends as the answer's status and lets a body
    follow: not the informational ones, not 204, not 304. *)
Definition takesBody (code : Z) : Prop :=
  200 ≤ code ≤ 999 ∧ code ≠ 204 ∧ code ≠ 304.

(** The name is one of the four the handler looks for. *)
Definition required (column : option ProjectColumn) : Prop :=
  Get.ColumnName column ∈ allColumns.

#[global] Instance matches_dec pr card : Decision (matches pr card) :=
  String.eq_dec (Get.CardNodeID card) (Get.PullRequestNodeID pr).
End Shapes.

Section MutationShapes.
Context {Srv : Type} `{!BoardClient Srv}.

(** The mutating call that [createOrMove] makes for a search result, and
    the response and error the Board Client returns for it. *)
Definition mutationCall (columns : gmap string (option ProjectColumn))
    (pr : option PullRequest) (cardID : Z) : Call :=
  if cardID =? 0 then createCall columns pr else moveCall columns cardID.

Definition mutationResult (columns : gmap string (option ProjectColumn))
    (pr : option PullRequest) (cardID : Z) (s : Srv) : (option Response * error) * Srv :=
  if cardID =? 0
  then
    let '((_, resp, err), s') :=
      CreateProjectCard (Get.ColumnID (at_ columns IN_REVIEW))
        {| ContentID := Get.PullRequestID pr; ContentType := "PullRequest" |} s in
    ((resp, err), s')
  else
    MoveProjectCard cardID
      {| Position := "bottom"; ColumnID := Get.ColumnID (at_ columns IN_REVIEW) |} s.

(** The log line of a failed mutation (lines 142 and 156). *)
Definition mutationLog (pr : option PullRequest) (cardID : Z) (text : string) : string :=
  (if cardID =? 0
   then "🚨 error creating project cards for pr "
   else "🚨 error moving project cards for pr ")
  +:+ Get.PullRequestTitle pr +:+ ": err=" +:+ text.

(** The log line of a failed card listing (line 119). *)
Definition listingLog (text : string) : string :=
  "🚨 error listing project cards for column " +:+ IN_REVIEW +:+ ": err=" +:+ text.

Definition nilDereference : string :=
  "runtime error: invalid memory address or nil pointer dereference".
End MutationShapes.

Module Faults.
(** Requests that never reach the board. *)
Definition unsigned : Request :=
  {| ValidatePayload := Some "missing signature";
     ParseWebHook := (EvOther, Some "unknown X-Github-Event in message: ");
     WebHookType := "" |}.
Definition unparseable : Request :=
  {| ValidatePayload := None;
     ParseWebHook := (EvOther, Some "unknown X-Github-Event in message: deploy");
     WebHookType := "deploy" |}.
Definition push : Request :=
  {| ValidatePayload := None; ParseWebHook := (EvOther, None); WebHookType := "push" |}.

(** The API refuses the project listing, the column listing, the listing
    of the "In review" cards, the move. *)
Definition projectsDown : Demo.Board := {|
  Demo.projects := ([], Demo.ok 403, Some "403 Forbidden");
  Demo.columns := Demo.columns Demo.board; Demo.cards := Demo.cards Demo.board;
  Demo.create := Demo.create Demo.board; Demo.move := Demo.move Demo.board
|}.
Definition columnsDown : Demo.Board := {|
  Demo.projects := Demo.projects Demo.board;
  Demo.columns _ := ([], Demo.ok 404, Some "404 Not Found");
  Demo.cards := Demo.cards Demo.board;
  Demo.create := Demo.create Demo.board; Demo.move := Demo.move Demo.board
|}.
Definition reviewDown : Demo.Board := {|
  Demo.projects := Demo.projects Demo.board; Demo.columns := Demo.columns Demo.board;
  Demo.cards id := if id =? 12 then ([], Demo.ok 502, Some "502 Bad Gateway")
                   else Demo.cards Demo.board id;
  Demo.create := Demo.create Demo.board; Demo.move := Demo.move Demo.board
|}.
Definition moveRejected : Demo.Board := {|
  Demo.projects := Demo.projects Demo.board; Demo.columns := Demo.columns Demo.board;
  Demo.cards := Demo.cards Demo.board; Demo.create := Demo.create Demo.board;
  Demo.move _ _ := (Demo.ok 422, Some "Validation Failed")
|}.

(** A column listing with a second "Backlog", a column of another name and
    a nil entry. *)
Definition crowded : list (option ProjectColumn) :=
  [Demo.column 10 BACKLOG; Demo.column 14 "Done"; Demo.column 11 IN_PROGRESS; None;
   Demo.column 20 BACKLOG; Demo.column 12 IN_REVIEW; Demo.column 13 PENDING_RELEASE].

Definition crowdedBoard : Demo.Board := {|
  Demo.projects := Demo.projects Demo.board;
  Demo.columns _ := (crowded, Demo.ok 200, None);
  Demo.cards := Demo.cards Demo.board;
  Demo.create := Demo.create Demo.board; Demo.move := Demo.move Demo.board
|}.

(** A column listing without "In review" only. *)
Definition threeColumns : list (option ProjectColumn) :=
  [Demo.column 10 BACKLOG; Demo.column 11 IN_PROGRESS; Demo.column 13 PENDING_RELEASE].
Definition reviewMissing : Demo.Board := {|
  Demo.projects := Demo.projects Demo.board;
  Demo.columns _ := (threeColumns, Demo.ok 200, None);
  Demo.cards := Demo.cards Demo.board;
  Demo.create := Demo.create Demo.board; Demo.move := Demo.move Demo.board
|}.
End Faults.

(** ** Column resolution (lines 33-54) *)

Section Columns.
Implicit Types (m : gmap string (option ProjectColumn))
               (cols : list (option ProjectColumn)) (k : string).

Lemma projColumns0_lookup k :
  projColumns0 !! k = if decide (k ∈ allColumns) then Some None else None.
Proof.
  unfold projColumns0, allColumns.
  do 4 (rewrite lookup_insert; case_decide;
        [subst; rewrite decide_True; [reflexivity | repeat constructor] |]).
  rewrite lookup_empty, decide_False; [reflexivity |].
  rewrite !elem_of_cons, elem_of_nil. intros [|[|[|[|[]]]]]; congruence.
Qed.

Lemma projColumns0_empty_name : projColumns0 !! "" = None.
Proof. reflexivity. Qed.

Lemma collectColumns_cons m column cols :
  collectColumns m (column :: cols) =
  collectColumns (match m !! Get.ColumnName column with
                  | Some _ => <[Get.ColumnName column := column]> m
                  | None => m
                  end) cols.
Proof. reflexivity. Qed.

(** The loop never adds a key. *)
Lemma collectColumns_absent cols : ∀ m k,
  m !! k = None → collectColumns m cols !! k = None.
Proof.
  induction cols as [|column cols IH]; intros m k Hk; [exact Hk |].
  rewrite collectColumns_cons. apply IH.
  destruct (m !! Get.ColumnName column) eqn:Hc; [|exact Hk].
  rewrite lookup_insert_ne; [exact Hk | congruence].
Qed.

(** A key that no listed column carries keeps its value. *)
Lemma collectColumns_untouched cols : ∀ m k v,
  m !! k = Some v →
  (∀ column, column ∈ cols → Get.ColumnName column ≠ k) →
  collectColumns m cols !! k = Some v.
Proof.
  induction cols as [|column cols IH]; intros m k v Hk Hno; [exact Hk |].
  rewrite collectColumns_cons. apply IH.
  - destruct (m !! Get.ColumnName column) eqn:Hc; [|exact Hk].
    rewrite lookup_insert_ne; [exact Hk |]. apply Hno. left.
  - intros c Hc. apply Hno. right. exact Hc.
Qed.

(** A key that is the name of a listed column ends up with a listed,
    non-nil column of that name. *)
Lemma collectColumns_found cols : ∀ m k,
  m !! "" = None →
  is_Some (m !! k) →
  (∃ column, column ∈ cols ∧ Get.ColumnName column = k) →
  ∃ c, collectColumns m cols !! k = Some (Some c)
       ∧ Some c ∈ cols ∧ Get.ColumnName (Some c) = k.
Proof.
  induction cols as [|column cols IH]; intros m k Hempty Hk (c & Hin & Hname).
  - inversion Hin.
  - rewrite collectColumns_cons.
    set (m' := match m !! Get.ColumnName column with
               | Some _ => <[Get.ColumnName column := column]> m
               | None => m
               end).
    assert (Hempty' : m' !! "" = None).
    { subst m'. destruct (m !! Get.ColumnName column) eqn:Hc; [|exact Hempty].
      rewrite lookup_insert_ne; [exact Hempty |]. intros E. congruence. }
    assert (Hk' : is_Some (m' !! k)).
    { subst m'. destruct (m !! Get.ColumnName column) eqn:Hc; [|exact Hk].
      rewrite lookup_insert. case_decide; eauto. }
    destruct (decide (Exists (λ c', Get.ColumnName c' = k) cols)) as [Hlater|Hnot];
      rewrite Exists_exists in *.
    + destruct (IH m' k Hempty' Hk' Hlater) as (c' & Hl & Hc' & Hn).
      exists c'. split; [exact Hl |]. split; [right; exact Hc' | exact Hn].
    + assert (Hhere : Get.ColumnName column = k).
      { apply elem_of_cons in Hin as [->|Hin]; [exact Hname |].
        exfalso. apply Hnot. eauto. }
      destruct column as [c0|].
      2:{ change ("" = k) in Hhere. rewrite <- Hhere, Hempty in Hk.
          destruct Hk as [? [=]]. }
      exists c0. split; [|split; [left | exact Hhere]].
      apply collectColumns_untouched.
      * subst m'. rewrite Hhere. destruct Hk as [v ->]. apply lookup_insert_eq.
      * intros c' Hc' E. apply Hnot. eauto.
Qed.

Lemma firstMissing_None (entries : list (string * option ProjectColumn)) :
  firstMissing entries = None ↔ ∀ k, (k, None) ∉ entries.
Proof.
  induction entries as [|[k v] entries IH]; cbn.
  - split; [intros _ k Hin; inversion Hin | reflexivity].
  - destruct v as [c|].
    + rewrite IH. split; intros H k' Hin.
      * apply elem_of_cons in Hin as [[=]|Hin]. exact (H k' Hin).
      * apply (H k'). right. exact Hin.
    + split; [intros [=] |]. intros H. exfalso. apply (H k). left.
Qed.

Lemma firstMissing_Some (entries : list (string * option ProjectColumn)) text :
  firstMissing entries = Some text →
  ∃ k, (k, None) ∈ entries ∧ text = "column " +:+ k +:+ " does not exist".
Proof.
  induction entries as [|[k v] entries IH]; cbn; [intros [=] |].
  destruct v as [c|].
  - intros H. destruct (IH H) as (k' & Hin & ->). exists k'. split; [right; exact Hin | reflexivity].
  - intros [= <-]. exists k. split; [left | reflexivity].
Qed.

Context (rangeMap : gmap string (option ProjectColumn) → list (string * option ProjectColumn)).
Hypothesis rangeMap_entries : ∀ m, rangeMap m ≡ₚ map_to_list m.

Lemma elem_of_rangeMap m k v : (k, v) ∈ rangeMap m ↔ m !! k = Some v.
Proof. rewrite rangeMap_entries. apply elem_of_map_to_list. Qed.

(** Every required name is listed: the second loop finds nothing nil. *)
Lemma firstMissing_complete cols :
  (∀ name, name ∈ allColumns → ∃ column, column ∈ cols ∧ Get.ColumnName column = name) →
  firstMissing (rangeMap (collectColumns projColumns0 cols)) = None.
Proof.
  intros Hall. apply firstMissing_None. intros k Hin.
  apply elem_of_rangeMap in Hin.
  destruct (decide (k ∈ allColumns)) as [Hk|Hk].
  - destruct (collectColumns_found cols projColumns0 k) as (c & Hc & _).
    + exact projColumns0_empty_name.
    + rewrite projColumns0_lookup, decide_True by exact Hk. eauto.
    + exact (Hall k Hk).
    + congruence.
  - rewrite collectColumns_absent in Hin; [discriminate |].
    rewrite projColumns0_lookup, decide_False by exact Hk. reflexivity.
Qed.

(** A required name is omitted: the second loop stops at a required name
    that no listed column carries. *)
Lemma firstMissing_omitted cols name :
  name ∈ allColumns →
  (∀ column, column ∈ cols → Get.ColumnName column ≠ name) →
  ∃ k, k ∈ allColumns
       ∧ (∀ column, column ∈ cols → Get.ColumnName column ≠ k)
       ∧ firstMissing (rangeMap (collectColumns projColumns0 cols))
         = Some ("column " +:+ k +:+ " does not exist").
Proof.
  intros Hname Hno.
  destruct (firstMissing (rangeMap (collectColumns projColumns0 cols))) as [text|] eqn:Hf.
  - destruct (firstMissing_Some _ _ Hf) as (k & Hin & ->).
    apply elem_of_rangeMap in Hin.
    assert (Hk : k ∈ allColumns).
    { destruct (decide (k ∈ allColumns)) as [Hk|Hk]; [exact Hk |].
      rewrite collectColumns_absent in Hin; [discriminate |].
      rewrite projColumns0_lookup, decide_False by exact Hk. reflexivity. }
    exists k. split; [exact Hk |]. split; [|reflexivity].
    intros column Hc E.
    destruct (collectColumns_found cols projColumns0 k) as (c & Hc' & _).
    + exact projColumns0_empty_name.
    + rewrite projColumns0_lookup, decide_True by exact Hk. eauto.
    + eauto.
    + congruence.
  - exfalso. rewrite firstMissing_None in Hf. apply (Hf name).
    apply elem_of_rangeMap. apply collectColumns_untouched; [|exact Hno].
    rewrite projColumns0_lookup, decide_True by exact Hname. reflexivity.
Qed.
End Columns.

(** ** Running the handler *)

Section Run.
Context {Srv : Type} `{!BoardClient Srv}.
Context (rangeMap : gmap string (option ProjectColumn) → list (string * option ProjectColumn)).

Local Arguments at_ : simpl never.
Local Arguments collectColumns : simpl never.
Local Arguments projColumns0 : simpl never.
Local Arguments String.append : simpl never.

Lemma handler_opened req e st :
  pullRequestEvent req e → Get.Action e = "opened" →
  handler rangeMap req st = opened rangeMap e st.
Proof.
  intros [Hv Hp] Ha. unfold handler. rewrite Hv, Hp.
  cbn. destruct (String.eqb_spec (Get.Action e) "opened"); [reflexivity | contradiction].
Qed.

Lemma handler_reads req e s0 project cols cards s6 :
  (∀ m, rangeMap m ≡ₚ map_to_list m) →
  pullRequestEvent req e → Get.Action e = "opened" →
  boardRead s0 project cols cards s6 →
  handler rangeMap req (initial s0) =
  createOrMove (resolved cols) (Get.PullRequest e)
    (findCardID cards (Get.PullRequest e))
    (afterReads project (resolved cols) s6).
Proof.
  intros Hrange Hev Hact
    (others & r1 & s1 & r2 & s2 & c1 & r3 & s3 & c2 & r4 & s4 & c3 & r5 & s5 & c4 & r6
     & H1 & Hname & H2 & Hall & H3 & H4 & H5 & H6 & ->).
  rewrite (handler_opened _ _ _ Hev Hact).
  unfold opened, bind, request. cbn. rewrite H1. cbn.
  rewrite Hname. cbn.
  unfold getColumns, bind, request. cbn. rewrite H2. cbn.
  rewrite (firstMissing_complete rangeMap Hrange cols Hall). cbn.
  fold (resolved cols).
  unfold bind, request. cbn. rewrite H3. cbn. rewrite H4. cbn. rewrite H5. cbn.
  rewrite H6. cbn. rewrite <- !app_assoc. reflexivity.
Qed.
End Run.

(** The effects of the handler monad, laid open. *)
Ltac unfold_effects :=
  unfold http_Error, WriteHeader, Fprintln, logPrintf, statusCodeOf, index0,
    ifErr, request, bind, return_, ret, panic in *.

(** Case analysis on every test the goal is stuck on. *)
Ltac case_ifs :=
  repeat match goal with
         | |- context [if ?b then _ else _] => destruct b; cbn
         end.

(** ** The search (lines 127-133) *)

Section Search.
Implicit Types (cards : list (option ProjectCard)) (pr : option PullRequest).

Lemma findCardID_none cards pr :
  (∀ card, card ∈ cards → ¬ matches pr card) → findCardID cards pr = 0.
Proof.
  induction cards as [|card cards IH]; intros Hno; [reflexivity |].
  cbn. destruct (String.eqb_spec (Get.CardNodeID card) (Get.PullRequestNodeID pr)) as [E|E].
  - exfalso. apply (Hno card); [left | exact E].
  - apply IH. intros c Hc. apply Hno. right. exact Hc.
Qed.

Lemma findCardID_first before card after pr :
  (∀ c, c ∈ before → ¬ matches pr c) → matches pr card →
  findCardID (before ++ card :: after) pr = Get.CardID card.
Proof.
  intros Hno Hm. induction before as [|c before IH]; cbn.
  - unfold matches in Hm. rewrite Hm, String.eqb_refl. reflexivity.
  - destruct (String.eqb_spec (Get.CardNodeID c) (Get.PullRequestNodeID pr)) as [E|E].
    + exfalso. apply (Hno c); [left | exact E].
    + apply IH. intros c' Hc'. apply Hno. right. exact Hc'.
Qed.
End Search.

(** ** Create or move (lines 135-161) *)

Section Mutation.
Context {Srv : Type} `{!BoardClient Srv}.
Implicit Types (columns : gmap string (option ProjectColumn)) (pr : option PullRequest).

Local Arguments at_ : simpl never.
Local Arguments String.append : simpl never.

Lemma createOrMove_create columns pr project s6 :
  let result := createOrMove columns pr 0 (afterReads project columns s6) in
  calls result.2 = readCalls project columns ++ [createCall columns pr]
  ∧ (createError columns pr s6 = None → result.1 = Return ∧ w result.2 = created).
Proof.
  unfold createOrMove, createError, createCall, calls. unfold_effects. cbn.
  destruct (CreateProjectCard _ _ s6) as [[[c [r|]] [text|]] s7]; cbn;
    case_ifs; (split; [reflexivity |]); intros [=]; split; reflexivity.
Qed.

Lemma createOrMove_move columns pr project s6 cardID :
  cardID ≠ 0 →
  let result := createOrMove columns pr cardID (afterReads project columns s6) in
  calls result.2 = readCalls project columns ++ [moveCall columns cardID]
  ∧ (moveError columns cardID s6 = None → result.1 = Return ∧ w result.2 = created).
Proof.
  intros Hid. unfold createOrMove, moveError, moveCall, calls. unfold_effects.
  destruct (Z.eqb_spec cardID 0) as [|_]; [contradiction |]. cbn.
  destruct (MoveProjectCard _ _ s6) as [[[r|] [text|]] s7]; cbn;
    case_ifs; (split; [reflexivity |]); intros [=]; split; reflexivity.
Qed.
End Mutation.

(** ** The scenarios' boards *)

Section Scenarios.
Lemma listsAllColumns_decide (cols : list (option ProjectColumn)) :
  bool_decide (Forall (λ name, Exists (λ c, Get.ColumnName c = name) cols) allColumns) = true →
  listsAllColumns cols.
Proof.
  intros H%bool_decide_eq_true_1 name Hin.
  rewrite Forall_forall in H. apply H, Exists_exists in Hin. exact Hin.
Qed.

Lemma ascending_entries m : Demo.ascending m ≡ₚ map_to_list m.
Proof. reflexivity. Qed.

Lemma descending_entries m : Demo.descending m ≡ₚ map_to_list m.
Proof. apply reverse_Permutation. Qed.

Lemma board_read :
  boardRead Demo.board Demo.sprint Demo.fourColumns
    [Demo.card 555 "PR_2"; Demo.card 556 "PR_3"; Demo.card 557 "PR_4";
     Demo.card 558 "PR_2"] Demo.board.
Proof.
  unfold boardRead. do 16 eexists.
  repeat split; try reflexivity.
  apply listsAllColumns_decide. reflexivity.
Qed.

Lemma zeroBoard_read :
  boardRead Demo.zeroBoard Demo.sprint Demo.fourColumns
    [Demo.card 0 "PR_2"; Demo.card 558 "PR_2"] Demo.zeroBoard.
Proof.
  unfold boardRead. do 16 eexists.
  repeat split; try reflexivity.
  apply listsAllColumns_decide. reflexivity.
Qed.

Lemma openedPR_event id node :
  pullRequestEvent (Demo.openedPR id node) (Demo.event "opened" id node).
Proof. split; reflexivity. Qed.
End Scenarios.

(** ** The handler on an "opened" event *)

Section Opened.
Context {Srv : Type} `{!BoardClient Srv}.
Context (rangeMap : gmap string (option ProjectColumn) → list (string * option ProjectColumn)).
Hypothesis rangeMap_entries : ∀ m, rangeMap m ≡ₚ map_to_list m.

(** C1, amended.  An "opened" pull-request event whose node ID matches none of the
    cards listed for the four columns: after the six reads the handler
    makes one more call, create-card on the "In review" column's ID with
    the pull request's numeric ID as content ID and "PullRequest" as
    content type, and no move-card call; when that call returns no error
    the handler returns with status 201 and an empty body. *)
Theorem opened_without_card_creates req e s0 project cols cards s6 :
  pullRequestEvent req e → Get.Action e = "opened" →
  boardRead s0 project cols cards s6 →
  (∀ card, card ∈ cards → ¬ matches (Get.PullRequest e) card) →
  let pr := Get.PullRequest e in
  let result := handler rangeMap req (initial s0) in
  calls result.2 =
    readCalls project (resolved cols) ++
    [CallCreateProjectCard (Get.ColumnID (at_ (resolved cols) IN_REVIEW))
       {| ContentID := Get.PullRequestID pr; ContentType := "PullRequest" |}]
  ∧ (createError (resolved cols) pr s6 = None →
     result.1 = Return ∧ w result.2 = {| status := Some 201; body := "" |}).
Proof.
  intros Hev Hact Hread Hno pr result. subst result.
  rewrite (handler_reads rangeMap req e s0 project cols cards s6
             rangeMap_entries Hev Hact Hread).
  rewrite (findCardID_none cards _ Hno).
  apply createOrMove_create.
Qed.

(** C2, amended.  An "opened" pull-request event whose node ID matches a
    card listed for one of the four columns, the first such card having
    an ID other than 0: after the six reads the handler makes one more
    call, move-card with that first card's ID, the "In review" column's ID
    as destination and position "bottom", and no create-card call; when
    that call returns no error the handler returns with status 201 and an
    empty body. *)
Theorem opened_with_card_moves req e s0 project cols before card after s6 :
  pullRequestEvent req e → Get.Action e = "opened" →
  boardRead s0 project cols (before ++ card :: after) s6 →
  (∀ c, c ∈ before → ¬ matches (Get.PullRequest e) c) →
  matches (Get.PullRequest e) card →
  Get.CardID card ≠ 0 →
  let result := handler rangeMap req (initial s0) in
  calls result.2 =
    readCalls project (resolved cols) ++
    [CallMoveProjectCard (Get.CardID card)
       {| Position := "bottom";
          ColumnID := Get.ColumnID (at_ (resolved cols) IN_REVIEW) |}]
  ∧ (moveError (resolved cols) (Get.CardID card) s6 = None →
     result.1 = Return ∧ w result.2 = {| status := Some 201; body := "" |}).
Proof.
  intros Hev Hact Hread Hno Hm Hid result. subst result.
  rewrite (handler_reads rangeMap req e s0 project cols _ s6
             rangeMap_entries Hev Hact Hread).
  rewrite (findCardID_first before card after _ Hno Hm).
  apply createOrMove_move. exact Hid.
Qed.

(** C10.  An "opened" pull-request event whose first matching card has
    ID 0: the handler makes the create-card call of the no-match case
    and no move-card call, and its whole run is the run it makes on a
    board with the same project, columns and final remote state where no
    card matches. *)
Theorem zero_card_id_means_not_found req e s0 project cols before card after s6 :
  pullRequestEvent req e → Get.Action e = "opened" →
  boardRead s0 project cols (before ++ card :: after) s6 →
  (∀ c, c ∈ before → ¬ matches (Get.PullRequest e) c) →
  matches (Get.PullRequest e) card →
  Get.CardID card = 0 →
  let pr := Get.PullRequest e in
  let result := handler rangeMap req (initial s0) in
  findCardID (before ++ card :: after) pr = 0
  ∧ calls result.2 =
      readCalls project (resolved cols) ++
      [CallCreateProjectCard (Get.ColumnID (at_ (resolved cols) IN_REVIEW))
         {| ContentID := Get.PullRequestID pr; ContentType := "PullRequest" |}]
  ∧ (createError (resolved cols) pr s6 = None →
     result.1 = Return ∧ w result.2 = {| status := Some 201; body := "" |})
  ∧ ∀ s0' cards',
      boardRead s0' project cols cards' s6 →
      (∀ c, c ∈ cards' → ¬ matches pr c) →
      handler rangeMap req (initial s0') = result.
Proof.
  intros Hev Hact Hread Hno Hm Hid pr result. subst pr result.
  assert (Hfind : findCardID (before ++ card :: after) (Get.PullRequest e) = 0).
  { rewrite (findCardID_first before card after _ Hno Hm). exact Hid. }
  split; [exact Hfind |].
  rewrite (handler_reads rangeMap req e s0 project cols _ s6
             rangeMap_entries Hev Hact Hread).
  rewrite Hfind.
  destruct (createOrMove_create (resolved cols) (Get.PullRequest e) project s6)
    as [Hcalls Hok].
  split; [exact Hcalls |]. split; [exact Hok |].
  intros s0' cards' Hread' Hno'.
  rewrite (handler_reads rangeMap req e s0' project cols cards' s6
             rangeMap_entries Hev Hact Hread').
  rewrite (findCardID_none cards' _ Hno'). reflexivity.
Qed.
End Opened.

Lemma opened_without_card_creates_witness :
  let result := handler Demo.ascending (Demo.openedPR 42 "PR_1") (initial Demo.board) in
  calls result.2 =
    [CallListProjects OWNER REPO; CallListProjectColumns 1;
     CallListProjectCards 10; CallListProjectCards 11;
     CallListProjectCards 12; CallListProjectCards 13;
     CallCreateProjectCard 12 {| ContentID := 42; ContentType := "PullRequest" |}]
  ∧ result.1 = Return ∧ w result.2 = {| status := Some 201; body := "" |}.
Proof.
  destruct (opened_without_card_creates Demo.ascending ascending_entries
              (Demo.openedPR 42 "PR_1") _ Demo.board Demo.sprint Demo.fourColumns _ Demo.board
              (openedPR_event 42 "PR_1") eq_refl board_read) as [Hcalls Hok].
  - intros card Hin. unfold matches.
    rewrite !elem_of_cons, elem_of_nil in Hin.
    destruct Hin as [->|[->|[->|[->|[]]]]]; vm_compute; discriminate.
  - split; [exact Hcalls | exact (Hok eq_refl)].
Defined.

(** C1 as stated fails: no card of the board has the node ID of the opened
    pull request, the creation is refused with a 422, and the handler
    answers 422 with the error text, not 201. *)
Lemma opened_without_card_refused_creation_is_not_created :
  let pr := Demo.pullRequest 42 "PR_1" in
  let cards := [Demo.card 555 "PR_2"; Demo.card 556 "PR_3"; Demo.card 557 "PR_4";
                Demo.card 558 "PR_2"] in
  let result :=
    handler Demo.ascending (Demo.openedPR 42 "PR_1") (initial Demo.createRejected) in
  boardRead Demo.createRejected Demo.sprint Demo.fourColumns cards Demo.createRejected
  ∧ (∀ card, card ∈ cards → ¬ matches pr card)
  ∧ calls result.2 =
      [CallListProjects OWNER REPO; CallListProjectColumns 1;
       CallListProjectCards 10; CallListProjectCards 11;
       CallListProjectCards 12; CallListProjectCards 13;
       CallCreateProjectCard 12 {| ContentID := 42; ContentType := "PullRequest" |}]
  ∧ result.1 = Return
  ∧ w result.2 = {| status := Some 422; body := "Validation Failed" +:+ LF |}
  ∧ status (w result.2) ≠ Some 201.
Proof.
  cbv zeta. split.
  { unfold boardRead. do 16 eexists.
    repeat split; try reflexivity.
    apply listsAllColumns_decide. reflexivity. }
  split.
  { intros card Hin. unfold matches.
    rewrite !elem_of_cons, elem_of_nil in Hin.
    destruct Hin as [->|[->|[->|[->|[]]]]]; vm_compute; discriminate. }
  repeat split. vm_compute. discriminate.
Qed.

Lemma opened_with_card_moves_witness :
  let result := handler Demo.ascending (Demo.openedPR 43 "PR_2") (initial Demo.board) in
  calls result.2 =
    [CallListProjects OWNER REPO; CallListProjectColumns 1;
     CallListProjectCards 10; CallListProjectCards 11;
     CallListProjectCards 12; CallListProjectCards 13;
     CallMoveProjectCard 555 {| Position := "bottom"; ColumnID := 12 |}]
  ∧ result.1 = Return ∧ w result.2 = {| status := Some 201; body := "" |}.
Proof.
  destruct (opened_with_card_moves Demo.ascending ascending_entries
              (Demo.openedPR 43 "PR_2") _ Demo.board Demo.sprint Demo.fourColumns
              [] (Demo.card 555 "PR_2")
              [Demo.card 556 "PR_3"; Demo.card 557 "PR_4"; Demo.card 558 "PR_2"] Demo.board
              (openedPR_event 43 "PR_2") eq_refl board_read) as [Hcalls Hok].
  - intros c Hin. inversion Hin.
  - reflexivity.
  - vm_compute. discriminate.
  - split; [exact Hcalls | exact (Hok eq_refl)].
Defined.

(** C2 as stated fails: card 0 in Backlog carries the node ID of the opened
    pull request, and the handler makes no move-card call; it creates a
    card instead. *)
Lemma opened_with_card_zero_does_not_move :
  let pr := Demo.pullRequest 43 "PR_2" in
  let result := handler Demo.ascending (Demo.openedPR 43 "PR_2") (initial Demo.zeroBoard) in
  (Demo.cards Demo.zeroBoard 10).1.1 = [Demo.card 0 "PR_2"]
  ∧ matches pr (Demo.card 0 "PR_2")
  ∧ result.1 = Return
  ∧ w result.2 = {| status := Some 201; body := "" |}
  ∧ calls result.2 =
      [CallListProjects OWNER REPO; CallListProjectColumns 1;
       CallListProjectCards 10; CallListProjectCards 11;
       CallListProjectCards 12; CallListProjectCards 13;
       CallCreateProjectCard 12 {| ContentID := 43; ContentType := "PullRequest" |}]
  ∧ ¬ ∃ cardID opts, CallMoveProjectCard cardID opts ∈ calls result.2.
Proof.
  cbv zeta. repeat split.
  intros (cardID & opts & Hin).
  change (calls _) with
    [CallListProjects OWNER REPO; CallListProjectColumns 1;
     CallListProjectCards 10; CallListProjectCards 11;
     CallListProjectCards 12; CallListProjectCards 13;
     CallCreateProjectCard 12 {| ContentID := 43; ContentType := "PullRequest" |}] in Hin.
  rewrite !elem_of_cons, elem_of_nil in Hin.
  destruct Hin as [H|[H|[H|[H|[H|[H|[H|[]]]]]]]]; discriminate H.
Qed.

Lemma zero_card_id_means_not_found_witness :
  let pr := Demo.pullRequest 43 "PR_2" in
  let result := handler Demo.ascending (Demo.openedPR 43 "PR_2") (initial Demo.zeroBoard) in
  findCardID [Demo.card 0 "PR_2"; Demo.card 558 "PR_2"] pr = 0
  ∧ calls result.2 =
      [CallListProjects OWNER REPO; CallListProjectColumns 1;
       CallListProjectCards 10; CallListProjectCards 11;
       CallListProjectCards 12; CallListProjectCards 13;
       CallCreateProjectCard 12 {| ContentID := 43; ContentType := "PullRequest" |}]
  ∧ result.1 = Return ∧ w result.2 = {| status := Some 201; body := "" |}.
Proof.
  destruct (zero_card_id_means_not_found Demo.ascending ascending_entries
              (Demo.openedPR 43 "PR_2") _ Demo.zeroBoard Demo.sprint Demo.fourColumns
              [] (Demo.card 0 "PR_2") [Demo.card 558 "PR_2"] Demo.zeroBoard
              (openedPR_event 43 "PR_2") eq_refl zeroBoard_read)
    as (Hfind & Hcalls & Hok & _).
  - intros c Hin. inversion Hin.
  - reflexivity.
  - reflexivity.
  - split; [exact Hfind |]. split; [exact Hcalls | exact (Hok eq_refl)].
Defined.

(** ** The search in the handler *)

Section CardSearch.
Context {Srv : Type} `{!BoardClient Srv}.

Local Arguments at_ : simpl never.

End CardSearch.


(** ** The early exits *)

Section EarlyExits.
Context {Srv : Type} `{!BoardClient Srv}.
Context (rangeMap : gmap string (option ProjectColumn) → list (string * option ProjectColumn)).

Local Arguments at_ : simpl never.
Local Arguments collectColumns : simpl never.
Local Arguments projColumns0 : simpl never.
Local Arguments String.append : simpl never.

(** C4.  A pull-request event with any action but "opened": the handler
    calls the Board Client not once, writes status 202 and no body, and
    returns. *)
Theorem other_action_is_accepted_untouched req e s0 :
  pullRequestEvent req e → Get.Action e ≠ "opened" →
  handler rangeMap req (initial s0) =
    (Return, {| remote := s0; trace := []; logs := [];
                w := {| status := Some 202; body := "" |} |}).
Proof.
  intros [Hv Hp] Hact. unfold handler. rewrite Hv, Hp. cbn.
  destruct (String.eqb_spec (Get.Action e) "opened"); [contradiction | reflexivity].
Qed.

(** C6.  The project listing succeeds and its first project is not named
    as configured: the handler answers 401 with "project <name> not
    found" and stops after that one call. *)
Theorem other_project_is_not_found req e s0 project others r1 s1 :
  pullRequestEvent req e → Get.Action e = "opened" →
  ListProjects OWNER REPO s0 = ((project :: others, r1, None), s1) →
  Get.ProjectName project ≠ PROJECT_NAME →
  handler rangeMap req (initial s0) =
    (Return,
     {| remote := s1;
        trace := [succeeded (CallListProjects OWNER REPO)];
        logs := ["🚨 error project " +:+ Get.ProjectName project
                 +:+ " not found: err=%!s(<nil>)"];
        w := {| status := Some 401;
                body := ("project " +:+ Get.ProjectName project +:+ " not found")
                        +:+ LF |} |}).
Proof.
  intros Hev Hact H1 Hname. rewrite (handler_opened rangeMap req e _ Hev Hact).
  unfold opened. unfold_effects. cbn. rewrite H1. cbn.
  destruct (String.eqb_spec (Get.ProjectName project) PROJECT_NAME); [contradiction |].
  cbn. reflexivity.
Qed.

(** C9.  The project listing succeeds with no project in it: the handler
    panics on [projects[0]], with nothing written and nothing logged, so a
    run that does not panic had a project to look at. *)
Theorem empty_project_list_panics req e s0 projects r1 s1 :
  pullRequestEvent req e → Get.Action e = "opened" →
  ListProjects OWNER REPO s0 = ((projects, r1, None), s1) →
  (projects = [] →
   handler rangeMap req (initial s0) =
     (Panic "runtime error: index out of range [0] with length 0",
      {| remote := s1;
         trace := [succeeded (CallListProjects OWNER REPO)];
         logs := []; w := {| status := None; body := "" |} |}))
  ∧ ((∀ msg, (handler rangeMap req (initial s0)).1 ≠ Panic msg) → projects ≠ []).
Proof.
  intros Hev Hact H1.
  assert (Hpanic : projects = [] →
    handler rangeMap req (initial s0) =
      (Panic "runtime error: index out of range [0] with length 0",
       {| remote := s1;
          trace := [succeeded (CallListProjects OWNER REPO)];
          logs := []; w := {| status := None; body := "" |} |})).
  { intros ->. rewrite (handler_opened rangeMap req e _ Hev Hact).
    unfold opened. unfold_effects. cbn. rewrite H1. reflexivity. }
  split; [exact Hpanic |].
  intros Htotal ->. apply (Htotal "runtime error: index out of range [0] with length 0").
  rewrite (Hpanic eq_refl). reflexivity.
Qed.

Hypothesis rangeMap_entries : ∀ m, rangeMap m ≡ₚ map_to_list m.

(** C5.  The column listing succeeds but has no column of some required
    name: [getColumns] returns the error "column <k> does not exist" for a
    required name [k] that the listing lacks, the handler answers 401 with
    that text, and it stops after the project and column listings. *)
Theorem missing_column_stops_before_cards req e s0 project others r1 s1 cols r2 s2 name :
  pullRequestEvent req e → Get.Action e = "opened" →
  ListProjects OWNER REPO s0 = ((project :: others, r1, None), s1) →
  Get.ProjectName project = PROJECT_NAME →
  ListProjectColumns (Get.ProjectID project) s1 = ((cols, r2, None), s2) →
  name ∈ allColumns →
  (∀ column, column ∈ cols → Get.ColumnName column ≠ name) →
  ∃ k, k ∈ allColumns
    ∧ (∀ column, column ∈ cols → Get.ColumnName column ≠ k)
    ∧ (∀ st, remote st = s1 →
         (getColumns rangeMap project st).1
         = Next (∅, Some ("column " +:+ k +:+ " does not exist")))
    ∧ handler rangeMap req (initial s0) =
        (Return,
         {| remote := s2;
            trace := [succeeded (CallListProjects OWNER REPO);
                      succeeded (CallListProjectColumns (Get.ProjectID project))];
            logs := ["🚨 error getting project columns: err="
                     +:+ ("column " +:+ k +:+ " does not exist")];
            w := {| status := Some 401;
                    body := ("column " +:+ k +:+ " does not exist") +:+ LF |} |}).
Proof.
  intros Hev Hact H1 Hname H2 Hin Hno.
  destruct (firstMissing_omitted rangeMap rangeMap_entries cols name Hin Hno)
    as (k & Hk & Hnok & Hfirst).
  exists k. split; [exact Hk |]. split; [exact Hnok |]. split.
  - intros st <-. unfold getColumns. unfold_effects. cbn.
    rewrite H2. cbn. rewrite Hfirst. reflexivity.
  - rewrite (handler_opened rangeMap req e _ Hev Hact).
    unfold opened, getColumns. unfold_effects. cbn. rewrite H1. cbn.
    rewrite Hname. cbn. rewrite H2. cbn. rewrite Hfirst. reflexivity.
Qed.
End EarlyExits.

Lemma other_action_is_accepted_untouched_witness :
  handler Demo.ascending Demo.closedPR (initial Demo.board) =
    (Return, {| remote := Demo.board; trace := []; logs := [];
                w := {| status := Some 202; body := "" |} |}).
Proof.
  apply (other_action_is_accepted_untouched Demo.ascending Demo.closedPR
           (Demo.event "closed" 42 "PR_1") Demo.board).
  - split; reflexivity.
  - vm_compute. discriminate.
Defined.

Lemma other_project_is_not_found_witness :
  handler Demo.ascending (Demo.openedPR 42 "PR_1") (initial Demo.otherProject) =
    (Return,
     {| remote := Demo.otherProject;
        trace := [succeeded (CallListProjects OWNER REPO)];
        logs := ["🚨 error project Roadmap not found: err=%!s(<nil>)"];
        w := {| status := Some 401; body := "project Roadmap not found" +:+ LF |} |}).
Proof.
  apply (other_project_is_not_found Demo.ascending (Demo.openedPR 42 "PR_1") _
           Demo.otherProject Demo.roadmap [Demo.sprint] (Demo.ok 200) Demo.otherProject
           (openedPR_event 42 "PR_1")).
  - reflexivity.
  - reflexivity.
  - vm_compute. discriminate.
Defined.

Lemma empty_project_list_panics_witness :
  handler Demo.ascending (Demo.openedPR 42 "PR_1") (initial Demo.noProject) =
    (Panic "runtime error: index out of range [0] with length 0",
     {| remote := Demo.noProject;
        trace := [succeeded (CallListProjects OWNER REPO)];
        logs := []; w := {| status := None; body := "" |} |}).
Proof.
  destruct (empty_project_list_panics Demo.ascending (Demo.openedPR 42 "PR_1") _
              Demo.noProject [] (Demo.ok 200) Demo.noProject
              (openedPR_event 42 "PR_1")) as [Hpanic _].
  - reflexivity.
  - reflexivity.
  - exact (Hpanic eq_refl).
Defined.

Lemma missing_column_stops_before_cards_witness :
  ∃ k, k ∈ allColumns
    ∧ (∀ column, column ∈ Demo.twoColumns → Get.ColumnName column ≠ k)
    ∧ (handler Demo.descending (Demo.openedPR 42 "PR_1") (initial Demo.noReview)).1 = Return
    ∧ w (handler Demo.descending (Demo.openedPR 42 "PR_1") (initial Demo.noReview)).2 =
        {| status := Some 401; body := ("column " +:+ k +:+ " does not exist") +:+ LF |}
    ∧ calls (handler Demo.descending (Demo.openedPR 42 "PR_1") (initial Demo.noReview)).2 =
        [CallListProjects OWNER REPO; CallListProjectColumns 1].
Proof.
  destruct (missing_column_stops_before_cards Demo.descending descending_entries
              (Demo.openedPR 42 "PR_1") _ Demo.noReview Demo.sprint [] (Demo.ok 200)
              Demo.noReview Demo.twoColumns (Demo.ok 200) Demo.noReview IN_REVIEW
              (openedPR_event 42 "PR_1")) as (k & Hk & Hno & _ & Hrun).
  - reflexivity.
  - reflexivity.
  - reflexivity.
  - reflexivity.
  - unfold allColumns. rewrite !elem_of_cons. right. right. left. reflexivity.
  - intros column Hin. unfold Demo.twoColumns in Hin.
    rewrite !elem_of_cons, elem_of_nil in Hin.
    destruct Hin as [->|[->|[->|[]]]]; vm_compute; discriminate.
  - exists k. split; [exact Hk |]. split; [exact Hno |].
    rewrite Hrun. repeat split.
Defined.

(** Which of the omitted columns the error names is the runtime's choice. *)
Example missing_column_depends_on_map_order :
  body (w (handler Demo.ascending (Demo.openedPR 42 "PR_1") (initial Demo.noReview)).2)
    = "column In review does not exist" +:+ LF
  ∧ body (w (handler Demo.descending (Demo.openedPR 42 "PR_1") (initial Demo.noReview)).2)
    = "column Pending release does not exist" +:+ LF.
Proof. split; reflexivity. Qed.

(** ** The calls of one request *)

Section Budget.
Context {Srv : Type} `{!BoardClient Srv}.
Context (rangeMap : gmap string (option ProjectColumn) → list (string * option ProjectColumn)).

Local Arguments at_ : simpl never.
Local Arguments collectColumns : simpl never.
Local Arguments projColumns0 : simpl never.
Local Arguments String.append : simpl never.
Local Arguments String.eqb : simpl never.
Local Arguments findCardID : simpl never.
Local Arguments firstMissing : simpl never.
Local Arguments Z.eqb : simpl never.
Local Arguments Z.ltb : simpl never.

(** What holds of all but the last element holds of whatever has a
    successor. *)
Lemma only_last {A} (P : A → Prop) (l : list A) :
  Forall (λ x, ¬ P x) (removelast l) →
  ∀ before x after, l = before ++ x :: after → P x → after = [].
Proof.
  intros Hall before x after -> Hx.
  destruct after as [|y after]; [reflexivity | exfalso].
  rewrite removelast_app in Hall by discriminate.
  apply Forall_app in Hall as [_ Hall]. cbn in Hall.
  apply Forall_cons in Hall as [Hnot _]. exact (Hnot Hx).
Qed.

Lemma ranks_ascend (l : list nat) :
  StronglySorted le l →
  ∀ i j a b, (i < j)%nat → l !! i = Some a → l !! j = Some b → (a ≤ b)%nat.
Proof.
  induction 1 as [|x l Hs IH Hx]; intros i j a b Hij Hi Hj.
  - destruct i; discriminate.
  - destruct j as [|j]; [lia |]. cbn in Hj.
    destruct i as [|i]; cbn in Hi.
    + injection Hi as <-. rewrite Forall_forall in Hx. apply Hx.
      apply list_elem_of_lookup. eauto.
    + apply (IH i j); [lia | assumption | assumption].
Qed.

Ltac trace_facts :=
  cbn; case_ifs;
  (repeat split;
   [ unfold count; cbn; lia | unfold count; cbn; lia
   | unfold count; cbn; lia | unfold count; cbn; lia
   | apply only_last; cbn; repeat constructor; cbn; congruence
   | apply only_last; cbn; repeat constructor; cbn; congruence
   | intros i j a b Hij; apply ranks_ascend; [cbn; repeat constructor; lia | exact Hij] ]).

(** C8.  Whatever the request and whatever the Board Client answers, one
    run of the handler makes at most one mutating call, at most one
    project listing, one column listing and four card listings; a call
    that returned an error is the last call of the run (nothing is
    retried and nothing follows a failure), a mutating call is the last
    call too, and the calls come one after the other in the order
    project listing, column listing, card listings, mutation. *)
Theorem one_mutation_and_six_reads_at_most req s0 :
  let result := handler rangeMap req (initial s0) in
  (count isMutation (calls result.2) ≤ 1)%nat
  ∧ (count isListProjects (calls result.2) ≤ 1)%nat
  ∧ (count isListProjectColumns (calls result.2) ≤ 1)%nat
  ∧ (count isListProjectCards (calls result.2) ≤ 4)%nat
  ∧ (∀ before x after,
       trace result.2 = before ++ x :: after → failure x ≠ None → after = [])
  ∧ (∀ before c after,
       calls result.2 = before ++ c :: after → isMutation c = true → after = [])
  ∧ (∀ i j a b, (i < j)%nat →
       map rank (calls result.2) !! i = Some a →
       map rank (calls result.2) !! j = Some b → (a ≤ b)%nat).
Proof.
  cbv zeta. unfold handler, calls.
  destruct (ValidatePayload req) as [text|]; [unfold_effects; trace_facts |].
  destruct (ParseWebHook req) as [event [text|]]; [unfold_effects; trace_facts |].
  destruct event as [e|]; [|unfold_effects; trace_facts].
  destruct (String.eqb (Get.Action e) "opened"); [|unfold_effects; trace_facts].
  unfold opened, getColumns, createOrMove, allColumns. cbn [listCards negb ifErr].
  unfold_effects. cbn.
  destruct (ListProjects OWNER REPO s0) as [[[projects r1] [text|]] s1]; cbn;
    [trace_facts |].
  destruct projects as [|project others]; cbn; [trace_facts |].
  destruct (String.eqb (Get.ProjectName project) PROJECT_NAME); cbn; [|trace_facts].
  destruct (ListProjectColumns (Get.ProjectID project) s1) as [[[cols r2] [text|]] s2]; cbn;
    [trace_facts |].
  destruct (firstMissing _) as [text|]; cbn; [trace_facts |].
  set (columns := collectColumns projColumns0 cols).
  destruct (ListProjectCards (Get.ColumnID (at_ columns BACKLOG)) s2)
    as [[[c1 r3] [text|]] s3]; cbn; [destruct r3; trace_facts |].
  destruct (ListProjectCards (Get.ColumnID (at_ columns IN_PROGRESS)) s3)
    as [[[c2 r4] [text|]] s4]; cbn; [destruct r4; trace_facts |].
  destruct (ListProjectCards (Get.ColumnID (at_ columns IN_REVIEW)) s4)
    as [[[c3 r5] [text|]] s5]; cbn; [destruct r5; trace_facts |].
  destruct (ListProjectCards (Get.ColumnID (at_ columns PENDING_RELEASE)) s5)
    as [[[c4 r6] [text|]] s6]; cbn; [destruct r6; trace_facts |].
  destruct (findCardID _ _ =? 0); cbn.
  - destruct (CreateProjectCard _ _ s6) as [[[c r7] [text|]] s7]; cbn;
      [destruct r7; trace_facts | trace_facts].
  - destruct (MoveProjectCard _ _ s6) as [[r7 [text|]] s7]; cbn;
      [destruct r7; trace_facts | trace_facts].
Qed.
End Budget.

(** ** A failure that comes without a response *)

(** C7.  A card listing, a creation or a move that fails before any
    response arrived (go-github then returns a nil [*Response] with the
    error): the handler logs the error and panics on [resp.StatusCode], so no
    status and no body are written by it.  With a response at hand (here a
    422) the handler does write that status and the error text. *)
Theorem failure_without_response_panics :
  let nilDeref := "runtime error: invalid memory address or nil pointer dereference" in
  let untouched := {| status := None; body := "" |} in
  let listing := handler Demo.ascending (Demo.openedPR 42 "PR_1") (initial Demo.listingDown) in
  let creation := handler Demo.ascending (Demo.openedPR 42 "PR_1") (initial Demo.createDown) in
  let move := handler Demo.ascending (Demo.openedPR 43 "PR_2") (initial Demo.moveDown) in
  let rejected :=
    handler Demo.ascending (Demo.openedPR 42 "PR_1") (initial Demo.createRejected) in
  (listing.1 = Panic nilDeref ∧ w listing.2 = untouched
   ∧ last (trace listing.2)
     = Some {| call := CallListProjectCards 10; failure := Demo.timeout |})
  ∧ (creation.1 = Panic nilDeref ∧ w creation.2 = untouched
     ∧ last (trace creation.2)
       = Some {| call := CallCreateProjectCard 12
                           {| ContentID := 42; ContentType := "PullRequest" |};
                 failure := Demo.timeout |})
  ∧ (move.1 = Panic nilDeref ∧ w move.2 = untouched
     ∧ last (trace move.2)
       = Some {| call := CallMoveProjectCard 555 {| Position := "bottom"; ColumnID := 12 |};
                 failure := Demo.timeout |})
  ∧ (rejected.1 = Return
     ∧ w rejected.2 = {| status := Some 422; body := "Validation Failed" +:+ LF |}).
Proof. cbv zeta. repeat split; vm_compute; reflexivity. Qed.

(** ** More on column resolution (lines 33-54) *)

Section ColumnsMore.
Implicit Types (m : gmap string (option ProjectColumn))
               (cols : list (option ProjectColumn)) (k : string).

Lemma collectColumns_app m cols cols' :
  collectColumns m (cols ++ cols') = collectColumns (collectColumns m cols) cols'.
Proof. unfold collectColumns. apply foldl_app. Qed.

Lemma collectColumns_keys cols : ∀ m k,
  is_Some (collectColumns m cols !! k) ↔ is_Some (m !! k).
Proof.
  induction cols as [|column cols IH]; intros m k; [reflexivity |].
  rewrite collectColumns_cons, IH.
  destruct (m !! Get.ColumnName column) eqn:Hc; [|reflexivity].
  rewrite lookup_insert. case_decide as E; [|reflexivity].
  subst k. rewrite Hc. split; eauto.
Qed.

(** The map that comes out of the first loop has the four required names
    as its keys, whatever was listed. *)
Theorem resolved_has_the_four_keys cols k :
  is_Some (resolved cols !! k) ↔ k ∈ allColumns.
Proof.
  unfold resolved. rewrite collectColumns_keys, projColumns0_lookup.
  case_decide as Hk; split; eauto.
  - intros [? [=]].
  - intros Hin. contradiction.
Qed.

(** Of several listed columns with one required name the last one is
    kept. *)
Theorem last_listed_column_wins cols before c after k :
  cols = before ++ Some c :: after →
  k ∈ allColumns →
  Get.ColumnName (Some c) = k →
  (∀ column, column ∈ after → Get.ColumnName column ≠ k) →
  at_ (resolved cols) k = Some c.
Proof.
  intros -> Hk Hname Hafter. unfold at_, resolved.
  rewrite collectColumns_app, collectColumns_cons.
  assert (Hkey : is_Some (collectColumns projColumns0 before !! Get.ColumnName (Some c))).
  { rewrite Hname, collectColumns_keys, projColumns0_lookup, decide_True by exact Hk.
    eauto. }
  destruct Hkey as [v Hv]. rewrite Hv.
  rewrite (collectColumns_untouched after _ k (Some c)); [reflexivity | | exact Hafter].
  rewrite Hname. apply lookup_insert_eq.
Qed.

Lemma collectColumns_filter_required cols : ∀ m,
  (∀ k, is_Some (m !! k) → k ∈ allColumns) →
  collectColumns m (filter required cols) = collectColumns m cols.
Proof.
  induction cols as [|column cols IH]; intros m Hkeys; [reflexivity |].
  rewrite filter_cons. destruct (decide (required column)) as [Hreq|Hnot].
  - rewrite !collectColumns_cons. apply IH.
    intros k. destruct (m !! Get.ColumnName column) eqn:Hc; [|apply Hkeys].
    rewrite lookup_insert. case_decide as E; [|apply Hkeys].
    subst k. intros _. exact Hreq.
  - rewrite collectColumns_cons.
    destruct (m !! Get.ColumnName column) eqn:Hc.
    + exfalso. apply Hnot, Hkeys. eauto.
    + apply IH. exact Hkeys.
Qed.

(** Listed columns of any other name, nil entries among them, change
    nothing in the outcome of the first loop. *)
Theorem other_columns_are_ignored cols :
  resolved (filter required cols) = resolved cols.
Proof.
  unfold resolved. apply collectColumns_filter_required.
  intros k Hk. rewrite projColumns0_lookup in Hk.
  case_decide; [assumption | destruct Hk as [? [=]]].
Qed.
End ColumnsMore.

Lemma last_listed_column_wins_witness :
  at_ (resolved Faults.crowded) BACKLOG = Demo.column 20 BACKLOG.
Proof.
  apply (last_listed_column_wins Faults.crowded
           [Demo.column 10 BACKLOG; Demo.column 14 "Done"; Demo.column 11 IN_PROGRESS; None]
           {| ProjectColumn_ID := Some 20; ProjectColumn_Name := Some BACKLOG |}
           [Demo.column 12 IN_REVIEW; Demo.column 13 PENDING_RELEASE] BACKLOG).
  - reflexivity.
  - unfold allColumns. left.
  - reflexivity.
  - intros column Hin. rewrite !elem_of_cons, elem_of_nil in Hin.
    destruct Hin as [->|[->|[]]]; vm_compute; discriminate.
Defined.

(** ** More on getColumns (lines 32-55) *)

Section GetColumnsMore.
Context {Srv : Type} `{!BoardClient Srv}.
Context (rangeMap : gmap string (option ProjectColumn) → list (string * option ProjectColumn)).
Hypothesis rangeMap_entries : ∀ m, rangeMap m ≡ₚ map_to_list m.

Local Arguments at_ : simpl never.
Local Arguments collectColumns : simpl never.
Local Arguments projColumns0 : simpl never.
Local Arguments String.append : simpl never.

Lemma getColumns_listed proj st cols r s' :
  ListProjectColumns (Get.ProjectID proj) (remote st) = ((cols, r, None), s') →
  getColumns rangeMap proj st =
    (match firstMissing (rangeMap (resolved cols)) with
     | Some text => Next (∅, Some text)
     | None => Next (resolved cols, None)
     end,
     {| remote := s';
        trace := trace st ++ [succeeded (CallListProjectColumns (Get.ProjectID proj))];
        logs := logs st; w := w st |}).
Proof.
  intros H. unfold getColumns. unfold_effects. rewrite H. cbn.
  fold (resolved cols). destruct (firstMissing _); reflexivity.
Qed.

Lemma listsAllColumns_or_omits (cols : list (option ProjectColumn)) :
  listsAllColumns cols
  ∨ ∃ name, name ∈ allColumns ∧ ∀ column, column ∈ cols → Get.ColumnName column ≠ name.
Proof.
  destruct (decide (Forall (λ name, Exists (λ c, Get.ColumnName c = name) cols) allColumns))
    as [Hall|Hnot].
  - left. intros name Hin. rewrite Forall_forall in Hall.
    apply Exists_exists. exact (Hall name Hin).
  - right. apply not_Forall_Exists in Hnot; [|intros name; apply _].
    apply Exists_exists in Hnot as (name & Hin & Hno).
    exists name. split; [exact Hin |].
    intros column Hc E. apply Hno, Exists_exists. eauto.
Qed.

(** When the column listing succeeds, [getColumns] returns the resolved
    map without error exactly when every required name is listed, in
    whatever order the runtime walks the map. *)
Theorem getColumns_succeeds_iff_all_listed proj st cols r s' :
  ListProjectColumns (Get.ProjectID proj) (remote st) = ((cols, r, None), s') →
  listsAllColumns cols ↔
  getColumns rangeMap proj st =
    (Next (resolved cols, None),
     {| remote := s';
        trace := trace st ++ [succeeded (CallListProjectColumns (Get.ProjectID proj))];
        logs := logs st; w := w st |}).
Proof.
  intros H. rewrite (getColumns_listed proj st cols r s' H). split.
  - intros Hall. unfold resolved.
    rewrite (firstMissing_complete rangeMap rangeMap_entries cols Hall). reflexivity.
  - intros Hrun. destruct (listsAllColumns_or_omits cols) as [Hall|(name & Hin & Hno)];
      [exact Hall | exfalso].
    destruct (firstMissing_omitted rangeMap rangeMap_entries cols name Hin Hno)
      as (k & _ & _ & Hk).
    unfold resolved in Hrun. rewrite Hk in Hrun. discriminate Hrun.
Qed.

(** When exactly one required name is missing from the listing, the error
    names that column, in whatever order the runtime walks the map. *)
Theorem single_missing_column_is_named proj st cols r s' name :
  ListProjectColumns (Get.ProjectID proj) (remote st) = ((cols, r, None), s') →
  name ∈ allColumns →
  (∀ column, column ∈ cols → Get.ColumnName column ≠ name) →
  (∀ k, k ∈ allColumns → k ≠ name → ∃ column, column ∈ cols ∧ Get.ColumnName column = k) →
  (getColumns rangeMap proj st).1 =
    Next (∅, Some ("column " +:+ name +:+ " does not exist")).
Proof.
  intros H Hin Hno Hothers. rewrite (getColumns_listed proj st cols r s' H).
  destruct (firstMissing_omitted rangeMap rangeMap_entries cols name Hin Hno)
    as (k & Hk & Hnok & Hfirst).
  unfold resolved. rewrite Hfirst. cbn.
  destruct (decide (k = name)) as [->|Hne]; [reflexivity | exfalso].
  destruct (Hothers k Hk Hne) as (column & Hc & E). exact (Hnok column Hc E).
Qed.

Lemma getColumns_passes_listing_error_on proj st cols r text s' :
  ListProjectColumns (Get.ProjectID proj) (remote st) = ((cols, r, Some text), s') →
  getColumns rangeMap proj st =
    (Next (∅, Some text),
     {| remote := s';
        trace := trace st ++ [{| call := CallListProjectColumns (Get.ProjectID proj);
                                 failure := Some text |}];
        logs := logs st; w := w st |}).
Proof.
  intros H. unfold getColumns. unfold_effects. rewrite H. reflexivity.
Qed.
End GetColumnsMore.

Lemma getColumns_succeeds_iff_all_listed_witness :
  listsAllColumns Faults.crowded ↔
  getColumns Demo.descending Demo.sprint (initial Faults.crowdedBoard) =
    (Next (resolved Faults.crowded, None),
     {| remote := Faults.crowdedBoard;
        trace := [succeeded (CallListProjectColumns 1)];
        logs := []; w := {| status := None; body := "" |} |}).
Proof.
  assert (Hlisting :
    ListProjectColumns (Get.ProjectID Demo.sprint) (remote (initial Faults.crowdedBoard))
    = ((Faults.crowded, Demo.ok 200, None), Faults.crowdedBoard)) by reflexivity.
  exact (getColumns_succeeds_iff_all_listed Demo.descending descending_entries
           Demo.sprint (initial Faults.crowdedBoard) Faults.crowded (Demo.ok 200)
           Faults.crowdedBoard Hlisting).
Defined.

Lemma single_missing_column_is_named_witness :
  (getColumns Demo.descending Demo.sprint (initial Faults.reviewMissing)).1 =
    Next (∅, Some "column In review does not exist")
  ∧ (getColumns Demo.ascending Demo.sprint (initial Faults.reviewMissing)).1 =
    Next (∅, Some "column In review does not exist").
Proof.
  assert (Hno : ∀ column, column ∈ Faults.threeColumns → Get.ColumnName column ≠ IN_REVIEW).
  { intros column Hin. unfold Faults.threeColumns in Hin.
    rewrite !elem_of_cons, elem_of_nil in Hin.
    destruct Hin as [->|[->|[->|[]]]]; vm_compute; discriminate. }
  assert (Hothers : ∀ k, k ∈ allColumns → k ≠ IN_REVIEW →
            ∃ column, column ∈ Faults.threeColumns ∧ Get.ColumnName column = k).
  { intros k Hk Hne. unfold allColumns in Hk. rewrite !elem_of_cons, elem_of_nil in Hk.
    destruct Hk as [->|[->|[->|[->|[]]]]].
    - exists (Demo.column 10 BACKLOG). split; [left | reflexivity].
    - exists (Demo.column 11 IN_PROGRESS). split; [right; left | reflexivity].
    - contradiction.
    - exists (Demo.column 13 PENDING_RELEASE). split; [right; right; left | reflexivity]. }
  assert (Hin : IN_REVIEW ∈ allColumns) by (unfold allColumns; right; right; left).
  assert (Hlisting :
    ListProjectColumns (Get.ProjectID Demo.sprint) (remote (initial Faults.reviewMissing))
    = ((Faults.threeColumns, Demo.ok 200, None), Faults.reviewMissing)) by reflexivity.
  split.
  - exact (single_missing_column_is_named Demo.descending descending_entries
             Demo.sprint (initial Faults.reviewMissing) Faults.threeColumns (Demo.ok 200)
             Faults.reviewMissing IN_REVIEW Hlisting Hin Hno Hothers).
  - exact (single_missing_column_is_named Demo.ascending ascending_entries
             Demo.sprint (initial Faults.reviewMissing) Faults.threeColumns (Demo.ok 200)
             Faults.reviewMissing IN_REVIEW Hlisting Hin Hno Hothers).
Defined.

(** ** More on the search (lines 127-133) *)

Section SearchMore.
Implicit Types (cards : list (option ProjectCard)) (pr : option PullRequest).

(** What the search returns: 0 when no card has the pull request's node
    ID, and otherwise the ID of the first card that has it. *)
Theorem findCardID_is_first_match_or_zero cards pr :
  ((∀ card, card ∈ cards → ¬ matches pr card) ∧ findCardID cards pr = 0)
  ∨ ∃ before card after,
      cards = before ++ card :: after
      ∧ (∀ c, c ∈ before → ¬ matches pr c)
      ∧ matches pr card
      ∧ findCardID cards pr = Get.CardID card.
Proof.
  induction cards as [|card cards IH].
  - left. split; [intros card Hin; inversion Hin | reflexivity].
  - destruct (matches_dec pr card) as [Hm|Hm].
    + right. exists [], card, cards. split; [reflexivity |].
      split; [intros c Hin; inversion Hin |]. split; [exact Hm |].
      apply (findCardID_first [] card cards pr); [intros c Hin; inversion Hin | exact Hm].
    + assert (Hstep : findCardID (card :: cards) pr = findCardID cards pr).
      { cbn. destruct (String.eqb_spec (Get.CardNodeID card) (Get.PullRequestNodeID pr));
          [contradiction | reflexivity]. }
      destruct IH as [[Hno H0]|(before & c & after & -> & Hno & Hc & Hid)].
      * left. split; [|rewrite Hstep; exact H0].
        intros c Hin. apply elem_of_cons in Hin as [->|Hin]; [exact Hm | exact (Hno c Hin)].
      * right. exists (card :: before), c, after. split; [reflexivity |].
        split; [|split; [exact Hc | rewrite Hstep; exact Hid]].
        intros c' Hin. apply elem_of_cons in Hin as [->|Hin]; [exact Hm | exact (Hno c' Hin)].
Qed.

(** A non-zero result is the ID of a listed, non-nil card with the pull
    request's node ID. *)
Theorem found_card_is_listed cards pr :
  findCardID cards pr ≠ 0 →
  ∃ card, Some card ∈ cards ∧ matches pr (Some card)
          ∧ ProjectCard_ID card = Some (findCardID cards pr).
Proof.
  induction cards as [|c cards IH]; cbn; [intros H; contradiction |].
  destruct (String.eqb_spec (Get.CardNodeID c) (Get.PullRequestNodeID pr)) as [E|E].
  - intros Hid. destruct c as [card|]; [|contradiction].
    exists card. split; [left |]. split; [exact E |].
    unfold Get.CardID, Get.field in *.
    destruct (ProjectCard_ID card); [reflexivity | contradiction].
  - intros Hid. destruct (IH Hid) as (card & Hin & Hm & Hcard).
    exists card. split; [right; exact Hin |]. split; assumption.
Qed.

(** Searching two listings one after the other: the second is looked at
    only when the first has no card with the pull request's node ID. *)
Theorem findCardID_app cards cards' pr :
  findCardID (cards ++ cards') pr =
    if decide (Exists (matches pr) cards) then findCardID cards pr else findCardID cards' pr.
Proof.
  induction cards as [|card cards IH]; cbn.
  - rewrite decide_False; [reflexivity | intros H; inversion H].
  - destruct (String.eqb_spec (Get.CardNodeID card) (Get.PullRequestNodeID pr)) as [E|E].
    + rewrite decide_True; [reflexivity | left; exact E].
    + rewrite IH. destruct (decide (Exists (matches pr) cards)) as [H|H].
      * rewrite decide_True; [reflexivity | right; exact H].
      * rewrite decide_False; [reflexivity |].
        intros H'. apply Exists_cons in H' as [H'|H']; contradiction.
Qed.
End SearchMore.

Lemma found_card_is_listed_witness :
  ∃ card, Some card ∈ [Demo.card 556 "PR_3"; Demo.card 555 "PR_2"; Demo.card 558 "PR_2"]
          ∧ matches (Demo.pullRequest 43 "PR_2") (Some card)
          ∧ ProjectCard_ID card = Some 555.
Proof.
  apply (found_card_is_listed
           [Demo.card 556 "PR_3"; Demo.card 555 "PR_2"; Demo.card 558 "PR_2"]
           (Demo.pullRequest 43 "PR_2")).
  vm_compute. discriminate.
Defined.

(** ** More on the card-listing loop (lines 115-124) *)

Section LoopMore.
Context {Srv : Type} `{!BoardClient Srv}.
Implicit Types (columns : gmap string (option ProjectColumn)) (st : State Srv).

Local Arguments at_ : simpl never.
Local Arguments String.append : simpl never.

Lemma valid_code_passes (code : Z) :
  validCode code → (code <? 100) || (999 <? code) = false.
Proof. unfold validCode. intros [Hlo Hhi]. apply orb_false_intro; apply Z.ltb_ge; lia. Qed.

Lemma takesBody_valid (code : Z) : takesBody code → validCode code.
Proof. unfold takesBody, validCode. lia. Qed.

(** Listing the columns of one list after those of another is the loop
    over both lists on end. *)
Theorem listCards_app columns names names' : ∀ cards st,
  listCards columns (names ++ names') cards st =
  (let* gathered := listCards columns names cards in
   listCards columns names' gathered) st.
Proof.
  induction names as [|name names IH]; intros cards st.
  - cbn. unfold_effects. reflexivity.
  - cbn [listCards app]. unfold_effects.
    destruct (ListProjectCards _ (remote st)) as [[[cs resp] [text|]] s'].
    + cbn. destruct resp as [r|]; cbn; [|reflexivity].
      destruct (status (w st)); cbn; [reflexivity |].
      destruct (_ || _); reflexivity.
    + cbn. rewrite IH. unfold_effects. reflexivity.
Qed.

Lemma listCards_step columns name rest cards st :
  listCards columns (name :: rest) cards st =
  (let* (columnCards, resp, err) :=
     request (CallListProjectCards (Get.ColumnID (at_ columns name))) snd
             (ListProjectCards (Get.ColumnID (at_ columns name))) in
   ifErr err (λ text,
     logPrintf (listingLog text) >>
     let* code := statusCodeOf resp in
     http_Error text code >>
     return_) >>
   listCards columns rest (cards ++ columnCards)) st.
Proof. reflexivity. Qed.

Lemma listCards_prefix columns before rest cards st cards' st' :
  listCards columns before cards st = (Next cards', st') →
  listCards columns (before ++ rest) cards st = listCards columns rest cards' st'.
Proof.
  revert cards st. induction before as [|name before IH]; intros cards st Hrun.
  - cbn in Hrun. unfold_effects. injection Hrun as <- <-. reflexivity.
  - cbn [app]. rewrite listCards_step in *. unfold_effects.
    destruct (ListProjectCards _ (remote st)) as [[[cs resp] [text|]] s'].
    + exfalso. cbn in Hrun. destruct resp as [r|]; cbn in Hrun; [|discriminate Hrun].
      destruct (status (w st)); cbn in Hrun; [discriminate Hrun |].
      destruct (_ || _); discriminate Hrun.
    + cbn in *. apply IH. exact Hrun.
Qed.

(** The listing of a column fails and a response came with the error
    whose status code is one that takes a body (200..999 but 204 and 304):
    the loop logs the error, answers with that status code and the error
    text, and the handler returns; the columns after it are not asked
    for. *)
Theorem listCards_failure_surfaces_status
    columns before name after cards st cards' st' cs r text s'' :
  listCards columns before cards st = (Next cards', st') →
  ListProjectCards (Get.ColumnID (at_ columns name)) (remote st')
    = ((cs, Some r, Some text), s'') →
  takesBody (StatusCode r) →
  status (w st') = None →
  listCards columns (before ++ name :: after) cards st =
    (Return,
     {| remote := s'';
        trace := trace st' ++
                 [{| call := CallListProjectCards (Get.ColumnID (at_ columns name));
                     failure := Some text |}];
        logs := logs st' ++ [listingLog text];
        w := {| status := Some (StatusCode r); body := body (w st') +:+ text +:+ LF |} |}).
Proof.
  intros Hbefore Hfail Hcode Hfresh.
  rewrite (listCards_prefix columns before (name :: after) cards st cards' st' Hbefore).
  rewrite listCards_step. unfold_effects. rewrite Hfail. cbn.
  rewrite Hfresh, (valid_code_passes _ (takesBody_valid _ Hcode)). reflexivity.
Qed.

(** The listing of a column fails and no response came with the error:
    the loop logs the error and panics on [resp.StatusCode]; the response
    writer is as it was. *)
Theorem listCards_failure_without_response_panics
    columns before name after cards st cards' st' cs text s'' :
  listCards columns before cards st = (Next cards', st') →
  ListProjectCards (Get.ColumnID (at_ columns name)) (remote st')
    = ((cs, None, Some text), s'') →
  listCards columns (before ++ name :: after) cards st =
    (Panic nilDereference,
     {| remote := s'';
        trace := trace st' ++
                 [{| call := CallListProjectCards (Get.ColumnID (at_ columns name));
                     failure := Some text |}];
        logs := logs st' ++ [listingLog text];
        w := w st' |}).
Proof.
  intros Hbefore Hfail.
  rewrite (listCards_prefix columns before (name :: after) cards st cards' st' Hbefore).
  rewrite listCards_step. unfold_effects. rewrite Hfail. reflexivity.
Qed.
End LoopMore.

Lemma listCards_failure_surfaces_status_witness :
  listCards (resolved Demo.fourColumns) allColumns [] (initial Faults.reviewDown) =
    (Return,
     {| remote := Faults.reviewDown;
        trace := [succeeded (CallListProjectCards 10); succeeded (CallListProjectCards 11);
                  {| call := CallListProjectCards 12; failure := Some "502 Bad Gateway" |}];
        logs := [listingLog "502 Bad Gateway"];
        w := {| status := Some 502; body := "502 Bad Gateway" +:+ LF |} |}).
Proof.
  apply (listCards_failure_surfaces_status (resolved Demo.fourColumns)
           [BACKLOG; IN_PROGRESS] IN_REVIEW [PENDING_RELEASE] [] (initial Faults.reviewDown)
           [Demo.card 555 "PR_2"; Demo.card 556 "PR_3"]
           {| remote := Faults.reviewDown;
              trace := [succeeded (CallListProjectCards 10);
                        succeeded (CallListProjectCards 11)];
              logs := []; w := {| status := None; body := "" |} |}
           [] {| StatusCode := 502 |} "502 Bad Gateway" Faults.reviewDown).
  - reflexivity.
  - reflexivity.
  - unfold takesBody. cbn. lia.
  - reflexivity.
Defined.

Lemma listCards_failure_without_response_panics_witness :
  listCards (resolved Demo.fourColumns) allColumns [] (initial Demo.listingDown) =
    (Panic nilDereference,
     {| remote := Demo.listingDown;
        trace := [{| call := CallListProjectCards 10; failure := Demo.timeout |}];
        logs := [listingLog "dial tcp: i/o timeout"];
        w := {| status := None; body := "" |} |}).
Proof.
  apply (listCards_failure_without_response_panics (resolved Demo.fourColumns)
           [] BACKLOG [IN_PROGRESS; IN_REVIEW; PENDING_RELEASE] [] (initial Demo.listingDown)
           [] (initial Demo.listingDown) [] "dial tcp: i/o timeout" Demo.listingDown).
  - reflexivity.
  - reflexivity.
Defined.

(** ** More on create or move (lines 135-161) *)

Section MutationMore.
Context {Srv : Type} `{!BoardClient Srv}.
Implicit Types (columns : gmap string (option ProjectColumn)) (pr : option PullRequest)
               (st : State Srv).

Local Arguments at_ : simpl never.
Local Arguments String.append : simpl never.

(** The creation or the move fails and a response came with the error
    whose status code is one that takes a body (200..999 but 204 and 304):
    the handler logs the error, answers with that status code and the
    error text and returns, having made that one call. *)
Theorem mutation_failure_surfaces_status columns pr cardID st r text s' :
  mutationResult columns pr cardID (remote st) = ((Some r, Some text), s') →
  takesBody (StatusCode r) →
  status (w st) = None →
  createOrMove columns pr cardID st =
    (Return,
     {| remote := s';
        trace := trace st ++
                 [{| call := mutationCall columns pr cardID; failure := Some text |}];
        logs := logs st ++ [mutationLog pr cardID text];
        w := {| status := Some (StatusCode r); body := body (w st) +:+ text +:+ LF |} |}).
Proof.
  unfold mutationResult, mutationCall, mutationLog, createOrMove, createCall, moveCall.
  intros Hfail Hcode Hfresh. unfold_effects.
  destruct (cardID =? 0).
  - destruct (CreateProjectCard _ _ (remote st)) as [[[c resp] err] s''].
    injection Hfail as -> -> ->. cbn.
    rewrite Hfresh, (valid_code_passes _ (takesBody_valid _ Hcode)). reflexivity.
  - rewrite Hfail. cbn.
    rewrite Hfresh, (valid_code_passes _ (takesBody_valid _ Hcode)). reflexivity.
Qed.

(** The creation or the move fails and no response came with the error:
    the handler logs the error and panics on [resp.StatusCode]; the
    response writer is as it was. *)
Theorem mutation_failure_without_response_panics columns pr cardID st text s' :
  mutationResult columns pr cardID (remote st) = ((None, Some text), s') →
  createOrMove columns pr cardID st =
    (Panic nilDereference,
     {| remote := s';
        trace := trace st ++
                 [{| call := mutationCall columns pr cardID; failure := Some text |}];
        logs := logs st ++ [mutationLog pr cardID text];
        w := w st |}).
Proof.
  unfold mutationResult, mutationCall, mutationLog, createOrMove, createCall, moveCall.
  intros Hfail. unfold_effects.
  destruct (cardID =? 0).
  - destruct (CreateProjectCard _ _ (remote st)) as [[[c resp] err] s''].
    injection Hfail as -> -> ->. reflexivity.
  - rewrite Hfail. reflexivity.
Qed.
End MutationMore.

Lemma mutation_failure_surfaces_status_witness :
  createOrMove (resolved Demo.fourColumns) (Demo.pullRequest 43 "PR_2") 555
    (initial Faults.moveRejected) =
    (Return,
     {| remote := Faults.moveRejected;
        trace := [{| call := CallMoveProjectCard 555 {| Position := "bottom"; ColumnID := 12 |};
                     failure := Some "Validation Failed" |}];
        logs := ["🚨 error moving project cards for pr a change: err=Validation Failed"];
        w := {| status := Some 422; body := "Validation Failed" +:+ LF |} |}).
Proof.
  apply (mutation_failure_surfaces_status (resolved Demo.fourColumns)
           (Demo.pullRequest 43 "PR_2") 555 (initial Faults.moveRejected)
           {| StatusCode := 422 |} "Validation Failed" Faults.moveRejected).
  - reflexivity.
  - unfold takesBody. cbn. lia.
  - reflexivity.
Defined.

Lemma mutation_failure_without_response_panics_witness :
  createOrMove (resolved Demo.fourColumns) (Demo.pullRequest 42 "PR_1") 0
    (initial Demo.createDown) =
    (Panic nilDereference,
     {| remote := Demo.createDown;
        trace := [{| call := CallCreateProjectCard 12
                               {| ContentID := 42; ContentType := "PullRequest" |};
                     failure := Demo.timeout |}];
        logs := ["🚨 error creating project cards for pr a change: err=dial tcp: i/o timeout"];
        w := {| status := None; body := "" |} |}).
Proof.
  apply (mutation_failure_without_response_panics (resolved Demo.fourColumns)
           (Demo.pullRequest 42 "PR_1") 0 (initial Demo.createDown)
           "dial tcp: i/o timeout" Demo.createDown).
  reflexivity.
Defined.

(** ** More on the handler's exits (lines 57-112, 162-165) *)

Section ExitsMore.
Context {Srv : Type} `{!BoardClient Srv}.
Context (rangeMap : gmap string (option ProjectColumn) → list (string * option ProjectColumn)).

Local Arguments at_ : simpl never.
Local Arguments collectColumns : simpl never.
Local Arguments projColumns0 : simpl never.
Local Arguments String.append : simpl never.

(** A payload that fails validation is answered 401 with the validation
    error, before anything is parsed: what [ParseWebHook] would say plays no
    part, and the board is not called. *)
Theorem invalid_payload_is_unauthorized req s0 text :
  ValidatePayload req = Some text →
  handler rangeMap req (initial s0) =
    (Return,
     {| remote := s0; trace := [];
        logs := ["🚨 error validating request body: err=" +:+ text];
        w := {| status := Some 401; body := text +:+ LF |} |}).
Proof. intros Hv. unfold handler. rewrite Hv. reflexivity. Qed.

(** A valid payload that does not parse is answered 400 with the parse
    error, whatever event came back with the error; the board is not
    called. *)
Theorem unparseable_payload_is_bad_request req s0 event text :
  ValidatePayload req = None →
  ParseWebHook req = (event, Some text) →
  handler rangeMap req (initial s0) =
    (Return,
     {| remote := s0; trace := [];
        logs := ["🚨 error could not parse webhook: err=" +:+ text];
        w := {| status := Some 400; body := text +:+ LF |} |}).
Proof. intros Hv Hp. unfold handler. rewrite Hv, Hp. reflexivity. Qed.

(** An event of any other type than pull request is logged and left
    without status and body; the board is not called. *)
Theorem other_event_is_logged_only req s0 :
  ValidatePayload req = None →
  ParseWebHook req = (EvOther, None) →
  handler rangeMap req (initial s0) =
    (Return,
     {| remote := s0; trace := [];
        logs := ["🤷‍♀️ event type " +:+ WebHookType req];
        w := {| status := None; body := "" |} |}).
Proof. intros Hv Hp. unfold handler. rewrite Hv, Hp. reflexivity. Qed.

(** A project listing that fails is answered 401 with the error text,
    whatever status the response carried and whatever was listed: an empty
    list does not make the handler panic here, and no other call is
    made. *)
Theorem project_listing_failure_is_unauthorized req e s0 projects r1 text s1 :
  pullRequestEvent req e → Get.Action e = "opened" →
  ListProjects OWNER REPO s0 = ((projects, r1, Some text), s1) →
  handler rangeMap req (initial s0) =
    (Return,
     {| remote := s1;
        trace := [{| call := CallListProjects OWNER REPO; failure := Some text |}];
        logs := ["🚨 error getting project name: err=" +:+ text];
        w := {| status := Some 401; body := text +:+ LF |} |}).
Proof.
  intros Hev Hact H1. rewrite (handler_opened rangeMap req e _ Hev Hact).
  unfold opened. unfold_effects. cbn. rewrite H1. reflexivity.
Qed.

(** A column listing that fails is answered 401 with the error text,
    whatever status the response carried and whatever was listed; the
    handler stops after the two listings. *)
Theorem column_listing_failure_is_unauthorized
    req e s0 project others r1 s1 cols r2 text s2 :
  pullRequestEvent req e → Get.Action e = "opened" →
  ListProjects OWNER REPO s0 = ((project :: others, r1, None), s1) →
  Get.ProjectName project = PROJECT_NAME →
  ListProjectColumns (Get.ProjectID project) s1 = ((cols, r2, Some text), s2) →
  handler rangeMap req (initial s0) =
    (Return,
     {| remote := s2;
        trace := [succeeded (CallListProjects OWNER REPO);
                  {| call := CallListProjectColumns (Get.ProjectID project);
                     failure := Some text |}];
        logs := ["🚨 error getting project columns: err=" +:+ text];
        w := {| status := Some 401; body := text +:+ LF |} |}).
Proof.
  intros Hev Hact H1 Hname H2. rewrite (handler_opened rangeMap req e _ Hev Hact).
  unfold opened, getColumns. unfold_effects. cbn. rewrite H1. cbn.
  rewrite Hname. cbn. rewrite H2. reflexivity.
Qed.
End ExitsMore.

Lemma invalid_payload_is_unauthorized_witness :
  handler Demo.ascending Faults.unsigned (initial Demo.board) =
    (Return,
     {| remote := Demo.board; trace := [];
        logs := ["🚨 error validating request body: err=missing signature"];
        w := {| status := Some 401; body := "missing signature" +:+ LF |} |}).
Proof.
  apply (invalid_payload_is_unauthorized Demo.ascending Faults.unsigned Demo.board
           "missing signature").
  reflexivity.
Defined.

Lemma unparseable_payload_is_bad_request_witness :
  handler Demo.ascending Faults.unparseable (initial Demo.board) =
    (Return,
     {| remote := Demo.board; trace := [];
        logs := ["🚨 error could not parse webhook: err=unknown X-Github-Event in message: deploy"];
        w := {| status := Some 400;
                body := "unknown X-Github-Event in message: deploy" +:+ LF |} |}).
Proof.
  apply (unparseable_payload_is_bad_request Demo.ascending Faults.unparseable Demo.board
           EvOther "unknown X-Github-Event in message: deploy").
  - reflexivity.
  - reflexivity.
Defined.

Lemma other_event_is_logged_only_witness :
  handler Demo.ascending Faults.push (initial Demo.board) =
    (Return,
     {| remote := Demo.board; trace := [];
        logs := ["🤷‍♀️ event type push"];
        w := {| status := None; body := "" |} |}).
Proof.
  apply (other_event_is_logged_only Demo.ascending Faults.push Demo.board).
  - reflexivity.
  - reflexivity.
Defined.

Lemma project_listing_failure_is_unauthorized_witness :
  handler Demo.ascending (Demo.openedPR 42 "PR_1") (initial Faults.projectsDown) =
    (Return,
     {| remote := Faults.projectsDown;
        trace := [{| call := CallListProjects OWNER REPO; failure := Some "403 Forbidden" |}];
        logs := ["🚨 error getting project name: err=403 Forbidden"];
        w := {| status := Some 401; body := "403 Forbidden" +:+ LF |} |}).
Proof.
  apply (project_listing_failure_is_unauthorized Demo.ascending (Demo.openedPR 42 "PR_1")
           (Demo.event "opened" 42 "PR_1") Faults.projectsDown [] (Demo.ok 403)
           "403 Forbidden" Faults.projectsDown (openedPR_event 42 "PR_1")).
  - reflexivity.
  - reflexivity.
Defined.

Lemma column_listing_failure_is_unauthorized_witness :
  handler Demo.ascending (Demo.openedPR 42 "PR_1") (initial Faults.columnsDown) =
    (Return,
     {| remote := Faults.columnsDown;
        trace := [succeeded (CallListProjects OWNER REPO);
                  {| call := CallListProjectColumns 1; failure := Some "404 Not Found" |}];
        logs := ["🚨 error getting project columns: err=404 Not Found"];
        w := {| status := Some 401; body := "404 Not Found" +:+ LF |} |}).
Proof.
  apply (column_listing_failure_is_unauthorized Demo.ascending (Demo.openedPR 42 "PR_1")
           (Demo.event "opened" 42 "PR_1") Faults.columnsDown Demo.sprint [] (Demo.ok 200)
           Faults.columnsDown [] (Demo.ok 404) "404 Not Found" Faults.columnsDown
           (openedPR_event 42 "PR_1")).
  - reflexivity.
  - reflexivity.
  - reflexivity.
  - reflexivity.
Defined.

(** ** What every run of the handler has in common *)

Section EveryRun.
Context {Srv : Type} `{!BoardClient Srv}.
Context (rangeMap : gmap string (option ProjectColumn) → list (string * option ProjectColumn)).

Local Arguments at_ : simpl never.
Local Arguments collectColumns : simpl never.
Local Arguments projColumns0 : simpl never.
Local Arguments String.append : simpl never.
Local Arguments String.eqb : simpl never.
Local Arguments findCardID : simpl never.
Local Arguments firstMissing : simpl never.
Local Arguments Z.eqb : simpl never.
Local Arguments Z.ltb : simpl never.

(** The tests on status codes: decided where the code is a constant, a
    case distinction where it is the response's. *)
Ltac code_cases :=
  repeat match goal with
         | |- context [if ?b then _ else _] =>
             let E := fresh "Hcode" in
             destruct b eqn:E; try (vm_compute in E; discriminate E); cbn
         end.

(** Every way through the handler, with [leaf] to finish each. *)
Ltac walk leaf :=
  cbv zeta; unfold handler;
  destruct (ValidatePayload _) as [?vtext|] eqn:?;
    [unfold_effects; cbn; code_cases; leaf |];
  destruct (ParseWebHook _) as [?event [?ptext|]] eqn:?;
    [unfold_effects; cbn; code_cases; leaf |];
  destruct event as [?e|]; [|unfold_effects; cbn; leaf];
  destruct (String.eqb (Get.Action _) "opened") eqn:?;
    [|unfold_effects; cbn; code_cases; leaf];
  unfold opened, getColumns, createOrMove, allColumns; cbn [listCards negb ifErr];
  unfold_effects; cbn;
  destruct (ListProjects OWNER REPO _) as [[[?projects ?r1] [?text|]] ?s1]; cbn;
    [code_cases; leaf |];
  destruct projects as [|?project ?others]; cbn; [leaf |];
  destruct (String.eqb (Get.ProjectName _) PROJECT_NAME); cbn; [|code_cases; leaf];
  destruct (ListProjectColumns _ _) as [[[?cols ?r2] [?text|]] ?s2]; cbn;
    [code_cases; leaf |];
  destruct (firstMissing _) as [?text|]; cbn; [code_cases; leaf |];
  destruct (ListProjectCards _ _) as [[[?c1 ?r3] [?text|]] ?s3]; cbn;
    [destruct r3; cbn; code_cases; leaf |];
  destruct (ListProjectCards _ _) as [[[?c2 ?r4] [?text|]] ?s4]; cbn;
    [destruct r4; cbn; code_cases; leaf |];
  destruct (ListProjectCards _ _) as [[[?c3 ?r5] [?text|]] ?s5]; cbn;
    [destruct r5; cbn; code_cases; leaf |];
  destruct (ListProjectCards _ _) as [[[?c4 ?r6] [?text|]] ?s6]; cbn;
    [destruct r6; cbn; code_cases; leaf |];
  match goal with
  | |- context [findCardID ?cs ?pr =? 0] =>
      destruct (Z.eqb_spec (findCardID cs pr) 0) as [?Hzero|?Hfound]
  end; cbn;
  [ destruct (CreateProjectCard _ _ _) as [[[?c ?r7] [?text|]] ?s7]; cbn;
      [destruct r7; cbn; code_cases; leaf | code_cases; leaf]
  | destruct (MoveProjectCard _ _ _) as [[?r7 [?text|]] ?s7]; cbn;
      [destruct r7; cbn; code_cases; leaf | code_cases; leaf] ].

(** A pull-request event that the handler returns from has got a status:
    only a panic leaves it without one. *)
Theorem pull_request_event_gets_status req s0 e :
  pullRequestEvent req e →
  (handler rangeMap req (initial s0)).1 = Return →
  is_Some (status (w (handler rangeMap req (initial s0)).2)).
Proof.
  intros [Hv Hp]. revert Hv Hp.
  walk ltac:(intros; cbn in *; first [discriminate | congruence | eauto]).
Qed.

Lemma error_body_nonempty (text : string) : "" +:+ text +:+ LF ≠ "".
Proof. destruct text; discriminate. Qed.

(** A panic leaves the response writer untouched, and it comes about in
    two places only: on [projects[0]] right after a project listing that
    returned no project and no error, or right after a card listing, a
    creation or a move that returned an error. *)
Theorem panic_follows_a_failure_or_an_empty_listing req s0 msg :
  (handler rangeMap req (initial s0)).1 = Panic msg →
  w (handler rangeMap req (initial s0)).2 = untouched
  ∧ ((msg = "runtime error: index out of range [0] with length 0"
      ∧ trace (handler rangeMap req (initial s0)).2
        = [succeeded (CallListProjects OWNER REPO)])
     ∨ ∃ failed text,
         last (trace (handler rangeMap req (initial s0)).2)
           = Some {| call := failed; failure := Some text |}
         ∧ (2 ≤ rank failed)%nat).
Proof.
  walk ltac:(
    cbn; intros Hpanic; try discriminate Hpanic;
    (split; [reflexivity |]);
    first [ left; split; [injection Hpanic as <-; reflexivity | reflexivity]
          | right; eexists _, _; split; [reflexivity | cbn; lia] ]).
Qed.

(** The answer is 201 with an empty body exactly when the last call of
    the run is a creation or a move that returned no error. *)
Theorem created_exactly_after_a_successful_mutation req s0 :
  w (handler rangeMap req (initial s0)).2 = {| status := Some 201; body := "" |}
  ↔ ∃ done, last (trace (handler rangeMap req (initial s0)).2) = Some (succeeded done)
            ∧ isMutation done = true.
Proof.
  walk ltac:(
    cbn; split;
    [ intros Hw;
      first [ discriminate Hw
            | injection Hw as Hs Hb; first [ discriminate Hs
                                           | exfalso; exact (error_body_nonempty _ Hb) ]
            | eexists; split; reflexivity ]
    | intros (done & Hlast & Hm);
      first [ discriminate Hlast
            | injection Hlast as <-; discriminate Hm
            | reflexivity ] ]).
Qed.

(** A run with a mutating call is the six reads (project listing, column
    listing, four card listings) followed by that call as the seventh and
    last; its column is the one whose cards were listed third, the "In
    review" column; a creation has content type "PullRequest" and the pull
    request's ID as content ID, a move has position "bottom" and never card
    ID 0. *)
Theorem mutation_is_seventh_and_targets_in_review req s0 mutation :
  mutation ∈ calls (handler rangeMap req (initial s0)).2 →
  isMutation mutation = true →
  (∃ projectID backlog inProgress inReview pending,
     calls (handler rangeMap req (initial s0)).2 =
       [CallListProjects OWNER REPO; CallListProjectColumns projectID;
        CallListProjectCards backlog; CallListProjectCards inProgress;
        CallListProjectCards inReview; CallListProjectCards pending;
        mutation]
     ∧ targetColumn mutation = Some inReview)
  ∧ match mutation with
    | CallCreateProjectCard _ opts =>
        ContentType opts = "PullRequest"
        ∧ ∀ ev err, ParseWebHook req = (EvPullRequest ev, err) →
            ContentID opts = Get.PullRequestID (Get.PullRequest ev)
    | CallMoveProjectCard cardID opts => cardID ≠ 0 ∧ Position opts = "bottom"
    | _ => False
    end.
Proof.
  unfold calls.
  walk ltac:(
    cbn; intros Hin Hm;
    repeat (apply elem_of_cons in Hin as [->|Hin]; [try (cbn in Hm; discriminate Hm) |]);
    try (inversion Hin; fail);
    (split; [do 5 eexists; split; reflexivity |]);
    cbn; split;
    first [ reflexivity
          | assumption
          | intros ev err Hp; injection Hp as <- _; reflexivity ]).
Qed.

(** The board is called exactly for the requests that validate and parse
    to a pull-request event with action "opened", and the first call is
    then the project listing of the configured repository. *)
Theorem board_is_called_exactly_for_opened req s0 :
  (calls (handler rangeMap req (initial s0)).2 ≠ []
   ↔ ValidatePayload req = None
     ∧ ∃ ev, ParseWebHook req = (EvPullRequest ev, None) ∧ Get.Action ev = "opened")
  ∧ ∀ first, head (calls (handler rangeMap req (initial s0)).2) = Some first →
             first = CallListProjects OWNER REPO.
Proof.
  unfold calls.
  walk ltac:(
    cbn; split;
    [ split;
      [ intros Hcalled;
        first [ exfalso; apply Hcalled; reflexivity
              | split; [reflexivity |];
                eexists; split; [reflexivity | apply String.eqb_eq; assumption] ]
      | intros (Hv & ev & Hp & Hact);
        first [ discriminate
              | congruence
              | injection Hp as <-;
                match goal with
                | H : String.eqb _ _ = false |- _ =>
                    rewrite Hact in H; vm_compute in H; discriminate H
                end ] ]
    | intros first Hhead;
      first [ discriminate Hhead | injection Hhead as <-; reflexivity ] ]).
Qed.

(** One run logs at most one line, and an answer with a body, which is
    always an error text, is never sent without that line. *)
Theorem error_answers_are_logged req s0 :
  (length (logs (handler rangeMap req (initial s0)).2) ≤ 1)%nat
  ∧ (body (w (handler rangeMap req (initial s0)).2) ≠ "" →
     length (logs (handler rangeMap req (initial s0)).2) = 1%nat).
Proof.
  walk ltac:(
    cbn; split; [lia |];
    intros Hbody; first [reflexivity | exfalso; apply Hbody; reflexivity]).
Qed.
End EveryRun.

Lemma pull_request_event_gets_status_witness :
  is_Some (status (w (handler Demo.descending (Demo.openedPR 42 "PR_1")
                        (initial Faults.reviewDown)).2)).
Proof.
  apply (pull_request_event_gets_status Demo.descending (Demo.openedPR 42 "PR_1")
           Faults.reviewDown (Demo.event "opened" 42 "PR_1") (openedPR_event 42 "PR_1")).
  reflexivity.
Defined.

Lemma panic_follows_a_failure_or_an_empty_listing_witness :
  w (handler Demo.ascending (Demo.openedPR 43 "PR_2") (initial Demo.moveDown)).2 = untouched
  ∧ ∃ failed text,
      last (trace (handler Demo.ascending (Demo.openedPR 43 "PR_2")
                     (initial Demo.moveDown)).2)
        = Some {| call := failed; failure := Some text |}
      ∧ (2 ≤ rank failed)%nat.
Proof.
  destruct (panic_follows_a_failure_or_an_empty_listing Demo.ascending
              (Demo.openedPR 43 "PR_2") Demo.moveDown nilDereference)
    as [Hw [[Hmsg _]|Hlast]].
  - reflexivity.
  - discriminate Hmsg.
  - split; [exact Hw | exact Hlast].
Defined.

Lemma mutation_is_seventh_and_targets_in_review_witness :
  ∃ projectID backlog inProgress inReview pending,
    calls (handler Demo.ascending (Demo.openedPR 43 "PR_2") (initial Demo.board)).2 =
      [CallListProjects OWNER REPO; CallListProjectColumns projectID;
       CallListProjectCards backlog; CallListProjectCards inProgress;
       CallListProjectCards inReview; CallListProjectCards pending;
       CallMoveProjectCard 555 {| Position := "bottom"; ColumnID := 12 |}]
    ∧ Some 12 = Some inReview.
Proof.
  destruct (mutation_is_seventh_and_targets_in_review Demo.ascending
              (Demo.openedPR 43 "PR_2") Demo.board
              (CallMoveProjectCard 555 {| Position := "bottom"; ColumnID := 12 |}))
    as [Hshape _].
  - change (calls _) with
      [CallListProjects OWNER REPO; CallListProjectColumns 1;
       CallListProjectCards 10; CallListProjectCards 11;
       CallListProjectCards 12; CallListProjectCards 13;
       CallMoveProjectCard 555 {| Position := "bottom"; ColumnID := 12 |}].
    do 6 right. left.
  - reflexivity.
  - exact Hshape.
Defined.
